(** * Consent ledger of [streamlit_app.py]

    A shallow embedding of the data layer of the consent-management
    application: the two SQLite tables [consent_texts] and [consents] and the
    six functions that read and write them ([upsert_consent_text],
    [get_latest_consent_text], [list_consent_texts], [save_consent],
    [list_consents], [revoke_consent]).

    Conventions.
    - A Python [str] and an SQLite [TEXT] value are a [string]: the sequence
      of their UTF-8 bytes.  SQLite compares [TEXT] under the BINARY collation
      byte by byte, which is [String.compare].
    - A nullable column is an [option]; [None] is SQL [NULL] and Python
      [None].
    - A table is the list of its rows in rowid order, the order in which a
      full scan visits them and in which they were inserted (no row is ever
      deleted).
    - What the program draws from its environment, the clock
      ([datetime.now]) and the random identifier ([uuid.uuid4]), is an
      explicit argument of the operation that draws it.
    - The database is passed explicitly.  An operation that raises inside
      [with db() as con:] skips [con.commit()], so it leaves the database as
      it found it. *)

From Stdlib Require Import ZArith List String Ascii Bool Lia.
From Stdlib Require Import Sorted Permutation.
Import ListNotations.

Local Open Scope string_scope.
Local Open Scope list_scope.
Local Open Scope Z_scope.

(** ** hashlib.sha256 (FIPS 180-4) *)

Module hashlib.

Definition w32 (x : Z) : Z := x mod 2 ^ 32.

Definition add32 (a b : Z) : Z := w32 (a + b).

Definition rotr (n x : Z) : Z :=
  Z.lor (Z.shiftr x n) (w32 (Z.shiftl x (32 - n))).

Definition Ch (x y z : Z) : Z :=
  Z.lxor (Z.land x y) (Z.land (w32 (Z.lnot x)) z).

Definition Maj (x y z : Z) : Z :=
  Z.lxor (Z.lxor (Z.land x y) (Z.land x z)) (Z.land y z).

Definition Sigma0 (x : Z) : Z :=
  Z.lxor (Z.lxor (rotr 2 x) (rotr 13 x)) (rotr 22 x).

Definition Sigma1 (x : Z) : Z :=
  Z.lxor (Z.lxor (rotr 6 x) (rotr 11 x)) (rotr 25 x).

Definition sigma0 (x : Z) : Z :=
  Z.lxor (Z.lxor (rotr 7 x) (rotr 18 x)) (Z.shiftr x 3).

Definition sigma1 (x : Z) : Z :=
  Z.lxor (Z.lxor (rotr 17 x) (rotr 19 x)) (Z.shiftr x 10).

(** The largest [r] with [r^3 <= x], found bit by bit from bit [n-1]
    down. *)
Fixpoint cube_root_from (n : nat) (x r : Z) : Z :=
  match n with
  | O => r
  | S n' =>
      let r' := r + 2 ^ Z.of_nat n' in
      cube_root_from n' x (if r' * r' * r' <=? x then r' else r)
  end.

Definition cube_root (x : Z) : Z := cube_root_from 40 x 0.

Definition is_prime (p : Z) : bool :=
  forallb (fun d => negb (p mod d =? 0))
          (map Z.of_nat (seq 2 (Z.to_nat p - 2))).

(** The first [n] primes, for [n] up to 64. *)
Definition primes (n : nat) : list Z :=
  firstn n (filter is_prime (map Z.of_nat (seq 2 310))).

(** The round constants: the first 32 bits of the fractional parts of the
    cube roots of the first 64 primes. *)
Definition K_of_primes : list Z :=
  map (fun p => w32 (cube_root (p * 2 ^ 96))) (primes 64).

(** The initial hash value: the first 32 bits of the fractional parts of
    the square roots of the first 8 primes. *)
Definition H0_of_primes : list Z :=
  map (fun p => w32 (Z.sqrt (p * 2 ^ 64))) (primes 8).

(** The values of [K_of_primes]. *)
Definition K : list Z :=
  [ 1116352408; 1899447441; 3049323471; 3921009573;
    961987163; 1508970993; 2453635748; 2870763221;
    3624381080; 310598401; 607225278; 1426881987;
    1925078388; 2162078206; 2614888103; 3248222580;
    3835390401; 4022224774; 264347078; 604807628;
    770255983; 1249150122; 1555081692; 1996064986;
    2554220882; 2821834349; 2952996808; 3210313671;
    3336571891; 3584528711; 113926993; 338241895;
    666307205; 773529912; 1294757372; 1396182291;
    1695183700; 1986661051; 2177026350; 2456956037;
    2730485921; 2820302411; 3259730800; 3345764771;
    3516065817; 3600352804; 4094571909; 275423344;
    430227734; 506948616; 659060556; 883997877;
    958139571; 1322822218; 1537002063; 1747873779;
    1955562222; 2024104815; 2227730452; 2361852424;
    2428436474; 2756734187; 3204031479; 3329325298 ].

(** The values of [H0_of_primes]. *)
Definition H0 : list Z :=
  [ 1779033703; 3144134277; 1013904242; 2773480762;
    1359893119; 2600822924; 528734635; 1541459225 ].

(** Big-endian bytes of [x], [n] of them. *)
Fixpoint be_bytes (n : nat) (x : Z) : list Z :=
  match n with
  | O => []
  | S n' => Z.shiftr x (8 * Z.of_nat n') mod 256 :: be_bytes n' x
  end.

Definition be_word (bs : list Z) : Z :=
  fold_left (fun acc b => acc * 256 + b) bs 0.

(** The message followed by the bit 1, zero bits up to 56 modulo 64 bytes,
    and the bit length on 8 bytes. *)
Definition pad (msg : list Z) : list Z :=
  let len := Z.of_nat (List.length msg) in
  let zeros := Z.to_nat ((55 - len) mod 64) in
  msg ++ [0x80] ++ repeat 0 zeros ++ be_bytes 8 (8 * len).

Fixpoint words (n : nat) (bs : list Z) : list Z :=
  match n with
  | O => []
  | S n' => be_word (firstn 4 bs) :: words n' (skipn 4 bs)
  end.

(** The message schedule, most recent word first: [rev_w] holds
    W(t-1), W(t-2), ... and the next word is
    sigma1 W(t-2) + W(t-7) + sigma0 W(t-15) + W(t-16). *)
Fixpoint schedule (n : nat) (rev_w : list Z) : list Z :=
  match n with
  | O => rev_w
  | S n' =>
      let w := add32 (add32 (sigma1 (nth 1 rev_w 0)) (nth 6 rev_w 0))
                     (add32 (sigma0 (nth 14 rev_w 0)) (nth 15 rev_w 0)) in
      schedule n' (w :: rev_w)
  end.

Record regs := Regs { ra : Z; rb : Z; rc : Z; rd : Z;
                      re : Z; rf : Z; rg : Z; rh : Z }.

Definition round (s : regs) (kw : Z * Z) : regs :=
  let t1 := add32 (add32 (add32 (rh s) (Sigma1 (re s)))
                         (add32 (Ch (re s) (rf s) (rg s)) (fst kw))) (snd kw) in
  let t2 := add32 (Sigma0 (ra s)) (Maj (ra s) (rb s) (rc s)) in
  Regs (add32 t1 t2) (ra s) (rb s) (rc s) (add32 (rd s) t1) (re s) (rf s) (rg s).

Definition regs_of (h : list Z) : regs :=
  Regs (nth 0 h 0) (nth 1 h 0) (nth 2 h 0) (nth 3 h 0)
       (nth 4 h 0) (nth 5 h 0) (nth 6 h 0) (nth 7 h 0).

Definition list_of (s : regs) : list Z :=
  [ra s; rb s; rc s; rd s; re s; rf s; rg s; rh s].

Definition compress (h : list Z) (block : list Z) : list Z :=
  let w := rev (schedule 48 (rev (words 16 block))) in
  let s := fold_left round (combine K w) (regs_of h) in
  map (fun p => add32 (fst p) (snd p)) (combine h (list_of s)).

Fixpoint blocks (n : nat) (h : list Z) (bs : list Z) : list Z :=
  match n with
  | O => h
  | S n' => blocks n' (compress h (firstn 64 bs)) (skipn 64 bs)
  end.

Definition byte_values (s : string) : list Z :=
  map (fun b => Z.of_N (Byte.to_N b)) (list_byte_of_string s).

(** [sha256 data] is the digest as eight 32-bit words; [data] is the
    message, one [Z] in 0..255 per byte. *)
Definition sha256 (data : list Z) : list Z :=
  let p := pad data in
  blocks (List.length p / 64) H0 p.

Definition hex_digit (d : Z) : ascii :=
  ascii_of_nat (Z.to_nat (if d <? 10 then 48 + d else 87 + d)).

Fixpoint hex_of (n : nat) (x : Z) : string :=
  match n with
  | O => EmptyString
  | S n' => String (hex_digit (Z.shiftr x (4 * Z.of_nat n') mod 16)) (hex_of n' x)
  end.

(** [hexdigest]: the 64 lower-case hexadecimal digits of the digest. *)
Definition hexdigest (digest : list Z) : string :=
  fold_right (fun w acc => (hex_of 8 w ++ acc)%string) EmptyString digest.

End hashlib.

(** [hashlib.sha256(text.encode("utf-8")).hexdigest()] *)
Definition sha256_hex (text : string) : string :=
  hashlib.hexdigest (hashlib.sha256 (hashlib.byte_values text)).

(** ** Text values *)

(** The order of [TEXT] values under the BINARY collation ([memcmp], then
    the shorter one first). *)
Definition text_leb (a b : string) : bool := String.leb a b.

(** The order of nullable [TEXT] values: [NULL] sorts below every value. *)
Definition sql_leb (a b : option string) : bool :=
  match a, b with
  | None, _ => true
  | Some _, None => false
  | Some x, Some y => text_leb x y
  end.

(** Python truthiness of an optional string: [None] and the empty string
    are false. *)
Definition truthy (s : option string) : bool :=
  match s with
  | Some (String _ _) => true
  | _ => false
  end.

(** [s or None] *)
Definition or_None (s : option string) : option string :=
  if truthy s then s else None.

(** [column = ?] with a bound text parameter: never true on [NULL]. *)
Definition sql_eqb (column : option string) (param : string) : bool :=
  match column with
  | Some v => String.eqb v param
  | None => false
  end.

(** ** datetime *)

Module datetime.

(** An aware [datetime] in UTC, as [datetime.now(timezone.utc)] returns
    it. *)
Record t := mk {
  year : Z; month : Z; day : Z;
  hour : Z; minute : Z; second : Z; microsecond : Z }.

Definition days_in_month (y m : Z) : Z :=
  if m =? 2 then
    if ((y mod 4 =? 0) && negb (y mod 100 =? 0)) || (y mod 400 =? 0)
    then 29 else 28
  else if (m =? 4) || (m =? 6) || (m =? 9) || (m =? 11) then 30 else 31.

(** The field ranges of a [datetime] object. *)
Definition valid (d : t) : Prop :=
  1 <= year d <= 9999 /\ 1 <= month d <= 12
  /\ 1 <= day d <= days_in_month (year d) (month d)
  /\ 0 <= hour d <= 23 /\ 0 <= minute d <= 59 /\ 0 <= second d <= 59
  /\ 0 <= microsecond d <= 999999.

Definition digit (x : Z) : ascii := ascii_of_nat (Z.to_nat (48 + x mod 10)).

(** ["%0nd" % x] for [0 <= x < 10^n]. *)
Fixpoint zfill (n : nat) (x : Z) : string :=
  match n with
  | O => EmptyString
  | S n' => String (digit (x / 10 ^ Z.of_nat n')) (zfill n' x)
  end.

Definition date_text (d : t) : string :=
  (zfill 4 (year d) ++ "-" ++ zfill 2 (month d) ++ "-" ++ zfill 2 (day d))%string.

Definition time_text (d : t) : string :=
  (zfill 2 (hour d) ++ ":" ++ zfill 2 (minute d) ++ ":" ++ zfill 2 (second d))%string.

(** [d.isoformat()]: [YYYY-MM-DDTHH:MM:SS+00:00] when the microsecond is
    0, [YYYY-MM-DDTHH:MM:SS.ffffff+00:00] otherwise. *)
Definition fraction_text (d : t) : string :=
  if microsecond d =? 0 then EmptyString
  else String "." (zfill 6 (microsecond d)).

Definition isoformat (d : t) : string :=
  (date_text d ++ "T" ++ time_text d ++ fraction_text d ++ "+00:00")%string.

End datetime.

(** ** SQLite's datetime() *)

Module sqlite.

Definition is_digit (c : ascii) : bool :=
  let n := Z.of_nat (nat_of_ascii c) in (48 <=? n) && (n <=? 57).

Fixpoint all_digits (s : string) : bool :=
  match s with
  | EmptyString => true
  | String c s' => is_digit c && all_digits s'
  end.

Fixpoint number_from (acc : Z) (s : string) : Z :=
  match s with
  | EmptyString => acc
  | String c s' => number_from (10 * acc + (Z.of_nat (nat_of_ascii c) - 48)) s'
  end.

(** [s] is exactly [n] digits whose value lies in [lo..hi]. *)
Definition digits_in (n : nat) (lo hi : Z) (s : string) : bool :=
  Nat.eqb (String.length s) n && all_digits s
  && (lo <=? number_from 0 s) && (number_from 0 s <=? hi).

(** What may follow the seconds, and the microseconds it spells: the zero
    offset alone, or a point, six digits and the zero offset. *)
Definition fraction (s : string) : option Z :=
  if String.eqb s "+00:00" then Some 0
  else if String.eqb (substring 0 1 s) "."
          && digits_in 6 0 999999 (substring 1 6 s)
          && String.eqb (substring 7 (String.length s - 7) s) "+00:00"
  then Some (number_from 0 (substring 1 6 s))
  else None.

(** SQLite rounds the time to the millisecond and accepts it up to
    9999-12-31 23:59:59.999: the last half millisecond of the year 9999
    rounds into the year 10000 and is out of range. *)
Definition rolls_over (Y M D h m s us : Z) : bool :=
  (Y =? 9999) && (M =? 12) && (D =? 31) && (h =? 23) && (m =? 59)
  && (s =? 59) && (999500 <=? us).

(** [datetime(X)] on the text that [isoformat] writes for an aware UTC
    datetime, [YYYY-MM-DDTHH:MM:SS+00:00] or
    [YYYY-MM-DDTHH:MM:SS.ffffff+00:00]: the value is [YYYY-MM-DD HH:MM:SS],
    the microseconds are dropped, and it is [NULL] when the time rounds out
    of range.  The column [created_at] only ever holds such text.  Other
    text, which SQLite may read as well, is outside this model (it answers
    [NULL] for it), and what is stated below of the order of the rows of
    [list_consents] is stated of tables that hold such text only. *)
Definition datetime (x : string) : option string :=
  let f (i n : nat) := substring i n x in
  let num (i n : nat) := number_from 0 (substring i n x) in
  match fraction (substring 19 (String.length x - 19) x) with
  | Some us =>
      if digits_in 4 0 9999 (f 0 4)%nat && String.eqb (f 4 1)%nat "-"
         && digits_in 2 1 12 (f 5 2)%nat && String.eqb (f 7 1)%nat "-"
         && digits_in 2 1 31 (f 8 2)%nat && String.eqb (f 10 1)%nat "T"
         && digits_in 2 0 23 (f 11 2)%nat && String.eqb (f 13 1)%nat ":"
         && digits_in 2 0 59 (f 14 2)%nat && String.eqb (f 16 1)%nat ":"
         && digits_in 2 0 59 (f 17 2)%nat
         && negb (rolls_over (num 0 4) (num 5 2) (num 8 2) (num 11 2)
                    (num 14 2) (num 17 2) us)%nat
      then Some (f 0 10 ++ " " ++ f 11 8)%nat%string
      else None
  | None => None
  end.

End sqlite.

(** ** json.dumps *)

Module json.

Definition quote : ascii := ascii_of_nat 34.
Definition backslash : ascii := ascii_of_nat 92.

Definition hex4 (n : Z) : string := hashlib.hex_of 4 n.

(** One character of a string literal, [ensure_ascii=False]: the quote,
    the backslash and the control characters below 0x20 are escaped, every
    other byte is kept. *)
Definition escape (c : ascii) : string :=
  let n := Z.of_nat (nat_of_ascii c) in
  if n =? 34 then String backslash (String quote EmptyString)
  else if n =? 92 then String backslash (String backslash EmptyString)
  else if n =? 8 then String backslash "b"
  else if n =? 12 then String backslash "f"
  else if n =? 10 then String backslash "n"
  else if n =? 13 then String backslash "r"
  else if n =? 9 then String backslash "t"
  else if n <? 32 then (String backslash "u" ++ hex4 n)%string
  else String c EmptyString.

Fixpoint escape_all (s : string) : string :=
  match s with
  | EmptyString => EmptyString
  | String c s' => (escape c ++ escape_all s')%string
  end.

Definition dumps_str (s : string) : string :=
  (String quote (escape_all s) ++ String quote EmptyString)%string.

Definition dumps_bool (b : bool) : string := if b then "true" else "false".

Definition dumps_item (kv : string * bool) : string :=
  (dumps_str (fst kv) ++ ": " ++ dumps_bool (snd kv))%string.

Fixpoint join_items (items : list (string * bool)) : string :=
  match items with
  | [] => EmptyString
  | [kv] => dumps_item kv
  | kv :: rest => (dumps_item kv ++ ", " ++ join_items rest)%string
  end.

(** [json.dumps(d, ensure_ascii=False)] for a dict from [str] to [bool],
    given as its items in insertion order. *)
Definition dumps (d : list (string * bool)) : string :=
  ("{" ++ join_items d ++ "}")%string.

End json.


(** ** ORDER BY ... DESC *)

Section OrderBy.

Context {A K : Type}.
Variable key : A -> K.
Variable leb : K -> K -> bool.

(** [x] was scanned before every row of [l]: it goes in front of the first
    row whose key is not greater than its own, so rows with equal keys
    keep their scan order, as SQLite's sorter leaves them. *)
Fixpoint insert_desc (x : A) (l : list A) : list A :=
  match l with
  | [] => [x]
  | y :: l' => if leb (key y) (key x) then x :: l else y :: insert_desc x l'
  end.

Definition order_by_desc (l : list A) : list A :=
  fold_right insert_desc [] l.

(** [a] may stand before [b] in a descending order. *)
Definition desc (a b : A) : Prop := leb (key b) (key a) = true.

End OrderBy.

(** ** The tables *)

Module ConsentText.

(** A row of [consent_texts], the tuple
    [(id, version, language, title, body, body_hash, created_at)]. *)
Record row := mk {
  id : Z;
  version : string;
  language : string;
  title : string;
  body : string;
  body_hash : string;
  created_at : string }.

End ConsentText.

Module Consent.

(** A row of [consents]. *)
Record row := mk {
  id : string;
  created_at : string;
  subject_email : option string;
  subject_name : option string;
  purposes_json : string;
  consent_text_id : Z;
  consent_text_version : string;
  consent_text_hash : string;
  is_granted : Z;
  revoked_at : option string;
  revocation_note : option string }.

End Consent.

Module Selected.

(** A row of the result of [list_consents], the tuple
    [(id, created_at, subject_email, subject_name, purposes_json,
      consent_text_version, is_granted, revoked_at)]. *)
Record row := mk {
  id : string;
  created_at : string;
  subject_email : option string;
  subject_name : option string;
  purposes_json : string;
  consent_text_version : string;
  is_granted : Z;
  revoked_at : option string }.

End Selected.

Record Db := mkDb {
  consent_texts : list ConsentText.row;
  consents : list Consent.row }.

(** The database after [init_db] on a new file: both tables exist and are
    empty. *)
Definition init_db : Db := mkDb [] [].

(** The constraint an [INSERT] broke. *)
Inductive constraint :=
| UNIQUE_constraint_failed
| FOREIGN_KEY_constraint_failed.

(** What an [INSERT] can raise here: [sqlite3.IntegrityError] for a broken
    constraint, and [OverflowError] for an int parameter that does not fit
    SQLite's 64-bit [INTEGER]. *)
Inductive exception :=
| IntegrityError (c : constraint)
| OverflowError.

Inductive result (A : Type) :=
| Ok (a : A)
| Raise (e : exception).
Arguments Ok {A} a.
Arguments Raise {A} e.

(** ** consent_texts *)

Fixpoint max_rowid (t : list ConsentText.row) : option Z :=
  match t with
  | [] => None
  | r :: t' =>
      Some (match max_rowid t' with
            | None => ConsentText.id r
            | Some m => Z.max (ConsentText.id r) m
            end)
  end.

(** The id an [INSERT] without id gets in an [INTEGER PRIMARY KEY] column:
    1 in an empty table, else one more than the largest id in use (the
    largest 64-bit id, after which SQLite draws ids at random, is out of
    reach of a table filled one row at a time). *)
Definition next_rowid (t : list ConsentText.row) : Z :=
  match max_rowid t with
  | None => 1
  | Some m => m + 1
  end.

Definition upsert_consent_text (now : datetime.t)
    (version language title body : string) (db : Db) : string * Db :=
  let h := sha256_hex body in
  let r := ConsentText.mk (next_rowid (consent_texts db)) version language
             title body h (datetime.isoformat now) in
  (h, mkDb (consent_texts db ++ [r]) (consents db)).

Definition get_latest_consent_text (language : string) (db : Db)
    : option ConsentText.row :=
  hd_error
    (order_by_desc ConsentText.created_at text_leb
       (filter (fun r => String.eqb (ConsentText.language r) language)
               (consent_texts db))).

Definition list_consent_texts (db : Db) : list ConsentText.row :=
  order_by_desc ConsentText.created_at text_leb (consent_texts db).

(** ** consents *)

Definition id_in_use (cid : string) (t : list Consent.row) : bool :=
  existsb (fun r => String.eqb (Consent.id r) cid) t.

Definition text_exists (ct_id : Z) (t : list ConsentText.row) : bool :=
  existsb (fun r => ConsentText.id r =? ct_id) t.

(** An int that SQLite's 64-bit [INTEGER] holds. *)
Definition fits_int64 (z : Z) : bool := (- 2 ^ 63 <=? z) && (z <? 2 ^ 63).

(** [uuid4] is the value of [str(uuid.uuid4())] and [now] the value of
    [datetime.now(timezone.utc)] in this call.  The parameters are bound
    first, and the int [ct_id] must fit 64 bits.  The [INSERT] then raises
    when the id is already a primary key of [consents], and, foreign keys
    being on, when [consent_text_id] is the id of no row of
    [consent_texts]. *)
Definition save_consent (uuid4 : string) (now : datetime.t)
    (subject_email subject_name : option string)
    (purposes : list (string * bool)) (ct_row : ConsentText.row) (db : Db)
    : result string * Db :=
  let ct_id := ConsentText.id ct_row in
  let ct_version := ConsentText.version ct_row in
  let ct_hash := ConsentText.body_hash ct_row in
  let cid := uuid4 in
  let r := Consent.mk cid (datetime.isoformat now)
             (or_None subject_email) (or_None subject_name)
             (json.dumps purposes) ct_id ct_version ct_hash 1 None None in
  if negb (fits_int64 ct_id) then (Raise OverflowError, db)
  else if id_in_use cid (consents db)
  then (Raise (IntegrityError UNIQUE_constraint_failed), db)
  else if negb (text_exists ct_id (consent_texts db))
  then (Raise (IntegrityError FOREIGN_KEY_constraint_failed), db)
  else (Ok cid, mkDb (consent_texts db) (consents db ++ [r])).

Definition select (r : Consent.row) : Selected.row :=
  Selected.mk (Consent.id r) (Consent.created_at r) (Consent.subject_email r)
    (Consent.subject_name r) (Consent.purposes_json r)
    (Consent.consent_text_version r) (Consent.is_granted r)
    (Consent.revoked_at r).

(** The rows the [WHERE] clause keeps: [AND subject_email = ?] is added
    only when [email_filter] is truthy. *)
Definition matching (email_filter : option string) (t : list Consent.row)
    : list Consent.row :=
  match email_filter with
  | Some f =>
      if truthy email_filter
      then filter (fun r => sql_eqb (Consent.subject_email r) f) t
      else t
  | None => t
  end.

Definition list_consents (email_filter : option string) (db : Db)
    : list Selected.row :=
  map select
    (order_by_desc (fun r => sqlite.datetime (Consent.created_at r)) sql_leb
       (matching email_filter (consents db))).

Definition default_note : string := "Widerruf durch Betroffene*n via UI".

(** The [UPDATE] of one row: the [SET] clause where the [WHERE] clause
    holds, the row as it is elsewhere. *)
Definition revoke_row (now : datetime.t) (consent_id note : string)
    (r : Consent.row) : Consent.row :=
  if String.eqb (Consent.id r) consent_id
     && match Consent.revoked_at r with None => true | Some _ => false end
  then Consent.mk (Consent.id r) (Consent.created_at r)
         (Consent.subject_email r) (Consent.subject_name r)
         (Consent.purposes_json r) (Consent.consent_text_id r)
         (Consent.consent_text_version r) (Consent.consent_text_hash r)
         0 (Some (datetime.isoformat now)) (Some note)
  else r.

Definition revoke_consent (now : datetime.t) (consent_id note : string)
    (db : Db) : Db :=
  mkDb (consent_texts db) (map (revoke_row now consent_id note) (consents db)).

(** ** Sequences of calls *)

Inductive call :=
| Upsert_consent_text (now : datetime.t) (version language title body : string)
| Get_latest_consent_text (language : string)
| List_consent_texts
| Save_consent (uuid4 : string) (now : datetime.t)
    (subject_email subject_name : option string)
    (purposes : list (string * bool)) (ct_row : ConsentText.row)
| List_consents (email_filter : option string)
| Revoke_consent (now : datetime.t) (consent_id note : string).

(** The database a call leaves behind. *)
Definition exec (db : Db) (c : call) : Db :=
  match c with
  | Upsert_consent_text now v l t b => snd (upsert_consent_text now v l t b db)
  | Get_latest_consent_text _ => db
  | List_consent_texts => db
  | Save_consent u now e n p ct => snd (save_consent u now e n p ct db)
  | List_consents _ => db
  | Revoke_consent now cid note => revoke_consent now cid note db
  end.

Definition run (cs : list call) (db : Db) : Db := fold_left exec cs db.

(** ** The order of datetimes *)

Definition then_compare (c c' : comparison) : comparison :=
  match c with
  | Eq => c'
  | _ => c
  end.

(** The comparison of two datetimes in UTC, field by field from the year
    down to the microsecond. *)
Definition datetime_compare (d1 d2 : datetime.t) : comparison :=
  then_compare (datetime.year d1 ?= datetime.year d2)
 (then_compare (datetime.month d1 ?= datetime.month d2)
 (then_compare (datetime.day d1 ?= datetime.day d2)
 (then_compare (datetime.hour d1 ?= datetime.hour d2)
 (then_compare (datetime.minute d1 ?= datetime.minute d2)
 (then_compare (datetime.second d1 ?= datetime.second d2)
               (datetime.microsecond d1 ?= datetime.microsecond d2)))))).

(** [d.replace(microsecond=0)] *)
Definition to_second (d : datetime.t) : datetime.t :=
  datetime.mk (datetime.year d) (datetime.month d) (datetime.day d)
    (datetime.hour d) (datetime.minute d) (datetime.second d) 0.

(** ** Predicates used in the statements *)

(** The text [s] is what [isoformat] writes for some datetime. *)
Definition stamped (s : string) : Prop :=
  exists d, datetime.valid d /\ s = datetime.isoformat d.

(** The clock of the call shows a datetime. *)
Definition clock_valid (c : call) : Prop :=
  match c with
  | Upsert_consent_text now _ _ _ _ => datetime.valid now
  | Save_consent _ now _ _ _ _ => datetime.valid now
  | Revoke_consent now _ _ => datetime.valid now
  | _ => True
  end.

(** The datetime is one that [datetime()] of SQLite reads from its
    [isoformat]: it is before the last half millisecond of the year
    9999. *)
Definition in_range (d : datetime.t) : Prop :=
  sqlite.rolls_over (datetime.year d) (datetime.month d) (datetime.day d)
    (datetime.hour d) (datetime.minute d) (datetime.second d)
    (datetime.microsecond d) = false.

(** The text [s] is what [isoformat] writes for some datetime in that
    range. *)
Definition readable (s : string) : Prop :=
  exists d, datetime.valid d /\ in_range d /\ s = datetime.isoformat d.

(** The clock of the call shows a datetime in that range. *)
Definition clock_in_range (c : call) : Prop :=
  match c with
  | Upsert_consent_text now _ _ _ _ => datetime.valid now /\ in_range now
  | Save_consent _ now _ _ _ _ => datetime.valid now /\ in_range now
  | Revoke_consent now _ _ => datetime.valid now /\ in_range now
  | _ => True
  end.

(** A call of [upsert_consent_text]. *)
Definition is_upsert (c : call) : Prop :=
  match c with
  | Upsert_consent_text _ _ _ _ _ => True
  | _ => False
  end.

(** [is_granted] and [revoked_at] agree. *)
Definition granted_iff_active (r : Consent.row) : Prop :=
  (Consent.is_granted r = 1 <-> Consent.revoked_at r = None)
  /\ (Consent.is_granted r = 1 \/ Consent.is_granted r = 0).

(** A listed row whose id no record of [db] has. *)
Definition is_new (db : Db) (s : Selected.row) : bool :=
  negb (id_in_use (Selected.id s) (consents db)).

Definition option_string_dec (a b : option string) : {a = b} + {a <> b}.
Proof. decide equality. apply string_dec. Defined.

(** The record's [subject_email] is the string [f]. *)
Definition email_equals (f : string) (r : Consent.row) : bool :=
  if option_string_dec (Consent.subject_email r) (Some f) then true else false.

(** [a] may stand before [b] in a list that is newest first to the
    second: the [datetime] of [b] is not above that of [a]. *)
Definition not_older_to_the_second (a b : Selected.row) : Prop :=
  sql_leb (sqlite.datetime (Selected.created_at b))
          (sqlite.datetime (Selected.created_at a)) = true.

(** [a] may stand before [b] in a list that is newest first by the stored
    creation time. *)
Definition not_older (a b : Selected.row) : Prop :=
  text_leb (Selected.created_at b) (Selected.created_at a) = true.

(** ** A session *)

Module Session.

Definition t0 : datetime.t := datetime.mk 2024 1 1 9 0 0 0.
Definition t1 : datetime.t := datetime.mk 2024 1 1 10 30 15 100000.
Definition t2 : datetime.t := datetime.mk 2024 1 1 10 30 15 900000.
Definition t3 : datetime.t := datetime.mk 2024 1 2 8 0 0 5.
Definition t4 : datetime.t := datetime.mk 2024 2 1 12 0 0 0.

Definition id_X : string := "0b0e7c1a-6d0f-4c53-9d3e-2f8a1c5b7e90".
Definition id_Y : string := "7a1d3f52-94c8-4b6e-a1f0-5c2e9d8b3a47".
Definition id_Z : string := "c4e1a9d0-3b7f-4f21-8e6a-91d5b2c0f3a8".

(** The SHA-256 hex digest of "Hello". *)
Definition hash_Hello : string :=
  "185f8db32271fe25f561a6fc938b2e264306ec304eda518007d1764826381969".

Definition purposes : list (string * bool) :=
  [("newsletter", true); ("produktinfos", false);
   ("feedback_kontakt", false); ("datenanalyse_aggregiert", false)].

(** The text "v1.0" with body "Hello" is stored. *)
Definition db1 : Db :=
  snd (upsert_consent_text t0 "v1.0" "de" "Titel" "Hello" init_db).

Definition latest : ConsentText.row :=
  ConsentText.mk 1 "v1.0" "de" "Titel" "Hello" hash_Hello
    "2024-01-01T09:00:00+00:00".

(** A row that is not in [consent_texts]. *)
Definition stray : ConsentText.row :=
  ConsentText.mk 99 "v9.9" "de" "Titel" "Hello" hash_Hello
    "2024-01-01T09:00:00+00:00".

(** A row whose id does not fit 64 bits. *)
Definition oversized : ConsentText.row :=
  ConsentText.mk (2 ^ 63) "v9.9" "de" "Titel" "Hello" hash_Hello
    "2024-01-01T09:00:00+00:00".

(** X consents without an e-mail address. *)
Definition db2 : Db :=
  snd (save_consent id_X t1 None None purposes latest db1).

Definition record_X : Consent.row :=
  Consent.mk id_X "2024-01-01T10:30:15.100000+00:00" None None
    (json.dumps purposes) 1 "v1.0" hash_Hello 1 None None.

(** Y consents in the same second, eight tenths of a second later. *)
Definition db3 : Db :=
  snd (save_consent id_Y t2 (Some "a@example.com") None purposes latest db2).

Definition record_Y : Consent.row :=
  Consent.mk id_Y "2024-01-01T10:30:15.900000+00:00" (Some "a@example.com")
    None (json.dumps purposes) 1 "v1.0" hash_Hello 1 None None.

(** X revokes. *)
Definition db4 : Db := revoke_consent t3 id_X default_note db3.

Definition revoked_X : Consent.row :=
  Consent.mk id_X "2024-01-01T10:30:15.100000+00:00" None None
    (json.dumps purposes) 1 "v1.0" hash_Hello 0
    (Some "2024-01-02T08:00:00.000005+00:00") (Some default_note).

(** Z consents the day after. *)
Definition db5 : Db :=
  snd (save_consent id_Z t3 (Some "z@example.com") None purposes latest db3).

Definition record_Z : Consent.row :=
  Consent.mk id_Z "2024-01-02T08:00:00.000005+00:00" (Some "z@example.com")
    None (json.dumps purposes) 1 "v1.0" hash_Hello 1 None None.

(** Newer versions of the text. *)
Definition new_texts : list call :=
  [Upsert_consent_text t3 "v1.1" "de" "Titel" "Hello again";
   Upsert_consent_text t4 "v2.0" "en" "Title" "Hello"].

Definition later_calls : list call :=
  [Revoke_consent t4 id_X "again";
   Save_consent id_Z t4 (Some "b@example.com") (Some "B") purposes latest;
   Upsert_consent_text t4 "v2.0" "de" "Titel" "Hello again";
   List_consents None;
   Revoke_consent t4 id_Y default_note;
   Revoke_consent t4 id_X default_note].

End Session.

(** ** Helpers of the page *)

(** [s[:n]]: the first [n] characters, all of [s] when there are fewer;
    for a negative [n], all but the last [-n]. *)
Definition slice_to (n : Z) (s : string) : string :=
  let len := Z.of_nat (String.length s) in
  let stop := if n <? 0 then Z.max (len + n) 0 else Z.min n len in
  substring 0 (Z.to_nat stop) s.

(** [sha256_preview(text, n)]; [n] is 10 when it is not given. *)
Definition sha256_preview (text : string) (n : Z) : string :=
  slice_to n (sha256_hex text).

Definition purposes_default : list (string * bool) :=
  [("newsletter", false); ("produktinfos", false);
   ("feedback_kontakt", false); ("datenanalyse_aggregiert", false)].

(** ** More predicates used in the statements *)

Definition is_hex_char (c : ascii) : bool :=
  let n := Z.of_nat (nat_of_ascii c) in
  ((48 <=? n) && (n <=? 57)) || ((97 <=? n) && (n <=? 102)).

Fixpoint all_chars (p : ascii -> bool) (s : string) : bool :=
  match s with
  | EmptyString => true
  | String c s' => p c && all_chars p s'
  end.

(** What a revocation of [consent_id] at [now] does to a listed row. *)
Definition revoke_listed (now : datetime.t) (consent_id : string)
    (s : Selected.row) : Selected.row :=
  if String.eqb (Selected.id s) consent_id
     && match Selected.revoked_at s with None => true | Some _ => false end
  then Selected.mk (Selected.id s) (Selected.created_at s)
         (Selected.subject_email s) (Selected.subject_name s)
         (Selected.purposes_json s) (Selected.consent_text_version s)
         0 (Some (datetime.isoformat now))
  else s.

(** The columns of a record that no call writes after the insert. *)
Definition same_grant (r r' : Consent.row) : Prop :=
  Consent.id r' = Consent.id r
  /\ Consent.created_at r' = Consent.created_at r
  /\ Consent.subject_email r' = Consent.subject_email r
  /\ Consent.subject_name r' = Consent.subject_name r
  /\ Consent.purposes_json r' = Consent.purposes_json r
  /\ Consent.consent_text_id r' = Consent.consent_text_id r
  /\ Consent.consent_text_version r' = Consent.consent_text_version r
  /\ Consent.consent_text_hash r' = Consent.consent_text_hash r.

(** What the constraints of the schema and the code of the inserts keep
    true of a database: the ids of [consent_texts] are 1, 2, ... in the
    order of the inserts, the ids of [consents] are pairwise distinct,
    every record points to a stored text, every [body_hash] is the digest
    of its [body], and no record holds an empty e-mail address or name. *)
Definition consistent (db : Db) : Prop :=
  map ConsentText.id (consent_texts db)
  = map Z.of_nat (seq 1 (List.length (consent_texts db)))
  /\ NoDup (map Consent.id (consents db))
  /\ Forall (fun r => In (Consent.consent_text_id r)
                         (map ConsentText.id (consent_texts db)))
            (consents db)
  /\ Forall (fun t => ConsentText.body_hash t
                      = sha256_hex (ConsentText.body t))
            (consent_texts db)
  /\ Forall (fun r => Consent.subject_email r <> Some EmptyString
                      /\ Consent.subject_name r <> Some EmptyString)
            (consents db).

(** ** str *)

Module str.

Definition byte (n : Z) : ascii := ascii_of_nat (Z.to_nat n).

(** The UTF-8 bytes of a code point. *)
Definition utf8 (cp : Z) : string :=
  if cp <? 128 then String (byte cp) EmptyString
  else if cp <? 2048 then
    String (byte (192 + cp / 64))
      (String (byte (128 + cp mod 64)) EmptyString)
  else if cp <? 65536 then
    String (byte (224 + cp / 4096))
      (String (byte (128 + (cp / 64) mod 64))
         (String (byte (128 + cp mod 64)) EmptyString))
  else
    String (byte (240 + cp / 262144))
      (String (byte (128 + (cp / 4096) mod 64))
         (String (byte (128 + (cp / 64) mod 64))
            (String (byte (128 + cp mod 64)) EmptyString))).

(** The code points [c] with [chr(c).isspace()], the ones [strip]
    removes. *)
Definition whitespace : list Z :=
  [9; 10; 11; 12; 13; 28; 29; 30; 31; 32; 133; 160; 5760;
   8192; 8193; 8194; 8195; 8196; 8197; 8198; 8199; 8200; 8201; 8202;
   8232; 8233; 8239; 8287; 12288].

(** [s] without the prefix [p], when it has it. *)
Fixpoint drop_prefix (p s : string) : option string :=
  match p with
  | EmptyString => Some s
  | String a p' =>
      match s with
      | String b s' => if Ascii.eqb a b then drop_prefix p' s' else None
      | EmptyString => None
      end
  end.

Fixpoint drop_first (ps : list string) (s : string) : option string :=
  match ps with
  | [] => None
  | p :: ps' =>
      match drop_prefix p s with
      | Some s' => Some s'
      | None => drop_first ps' s
      end
  end.

(** [s] without its longest prefix made of strings of [ps]; [n] bounds the
    number of them. *)
Fixpoint lstrip_with (ps : list string) (n : nat) (s : string) : string :=
  match n with
  | O => s
  | S n' =>
      match drop_first ps s with
      | Some s' => lstrip_with ps n' s'
      | None => s
      end
  end.

Fixpoint reverse_onto (s acc : string) : string :=
  match s with
  | EmptyString => acc
  | String c s' => reverse_onto s' (String c acc)
  end.

Definition reverse (s : string) : string := reverse_onto s EmptyString.

Definition lstrip (s : string) : string :=
  lstrip_with (map utf8 whitespace) (String.length s) s.

Definition rstrip (s : string) : string :=
  reverse
    (lstrip_with (map (fun c => reverse (utf8 c)) whitespace)
       (String.length s) (reverse s)).

(** [s.strip()] *)
Definition strip (s : string) : string := rstrip (lstrip s).

End str.

(** ** dict *)

(** [d[k] = v] on the items of a dict: the value of the key is replaced
    where the key stands, a new key goes to the end. *)
Fixpoint setitem (k : string) (v : bool) (d : list (string * bool))
    : list (string * bool) :=
  match d with
  | [] => [(k, v)]
  | (k', v') :: d' =>
      if String.eqb k' k then (k, v) :: d' else (k', v') :: setitem k v d'
  end.

(** [any(d.values())] *)
Definition any_values (d : list (string * bool)) : bool := existsb snd d.

(** ** The page *)

Module Widgets.

(** What the widgets of the page return in one run of the script. *)
Record t := mk {
  version : string;
  language : string;
  title : string;
  body : string;
  submitted_ct : bool;
  newsletter : bool;
  produktinfos : bool;
  feedback_kontakt : bool;
  datenanalyse_aggregiert : bool;
  subject_name : string;
  subject_email : string;
  ack_info : bool;
  age_ok : bool;
  submitted : bool;
  email_filter : string;
  cid_to_revoke : string;
  revoke_clicked : bool }.

End Widgets.

Module Draws.

(** What the run draws from its environment: the clock at each of the
    three writes and the identifier. *)
Record t := mk {
  now_text : datetime.t;
  uuid4 : string;
  now_consent : datetime.t;
  now_revoke : datetime.t }.

End Draws.

(** The form "consent_text_form". *)
Definition consent_text_form (now : datetime.t) (w : Widgets.t) (db : Db)
    : Db :=
  if Widgets.submitted_ct w
  then snd (upsert_consent_text now (Widgets.version w) (Widgets.language w)
              (Widgets.title w) (Widgets.body w) db)
  else db.

(** The dict [p] of the form "consent_collect_form" after the four
    checkboxes. *)
Definition checked_purposes (w : Widgets.t) : list (string * bool) :=
  setitem "datenanalyse_aggregiert" (Widgets.datenanalyse_aggregiert w)
    (setitem "feedback_kontakt" (Widgets.feedback_kontakt w)
       (setitem "produktinfos" (Widgets.produktinfos w)
          (setitem "newsletter" (Widgets.newsletter w) purposes_default))).

(** What the form "consent_collect_form" tells the subject. *)
Inductive notice :=
| Nothing
| Error_not_confirmed
| Warning_no_purpose
| Saved (cid : string).

Definition consent_collect_form (uuid4 : string) (now : datetime.t)
    (w : Widgets.t) (latest : ConsentText.row) (db : Db)
    : result notice * Db :=
  let p := checked_purposes w in
  if Widgets.submitted w then
    if negb (Widgets.ack_info w) || negb (Widgets.age_ok w)
    then (Ok Error_not_confirmed, db)
    else if negb (any_values p) then (Ok Warning_no_purpose, db)
    else
      match save_consent uuid4 now
              (or_None (Some (str.strip (Widgets.subject_email w))))
              (or_None (Some (str.strip (Widgets.subject_name w))))
              p latest db with
      | (Ok cid, db') => (Ok (Saved cid), db')
      | (Raise e, db') => (Raise e, db')
      end
  else (Ok Nothing, db).

(** The options of the select box "Vorgangs-ID": the empty string and the
    ids of the rows listed. *)
Definition revoke_options (rows : list Selected.row) : list string :=
  EmptyString :: map Selected.id rows.

(** Section 3 of the page: the rows under the filter typed and, when there
    are rows, the button, which is disabled while [cid_to_revoke] is the
    empty string.  The drawing of the table, which reads [purposes_json]
    back with [json.loads], is left out: it writes nothing, and it succeeds
    on the text that [json.dumps] wrote. *)
Definition self_service (now : datetime.t) (w : Widgets.t) (db : Db) : Db :=
  let rows :=
    list_consents (or_None (Some (str.strip (Widgets.email_filter w)))) db in
  match rows with
  | [] => db
  | _ :: _ =>
      if Widgets.revoke_clicked w
         && negb (String.eqb (Widgets.cid_to_revoke w) EmptyString)
      then revoke_consent now (Widgets.cid_to_revoke w) default_note db
      else db
  end.

(** How a run of the script ends: at its last line, at [st.stop()], or in
    the exception of an [INSERT]. *)
Inductive ending :=
| Finished
| Stopped
| Crashed (e : exception).

(** One run of the script on the database [db]. *)
Definition page (e : Draws.t) (w : Widgets.t) (db : Db) : ending * Db :=
  let db1 := consent_text_form (Draws.now_text e) w db in
  match get_latest_consent_text "de" db1 with
  | None => (Stopped, db1)
  | Some latest =>
      match consent_collect_form (Draws.uuid4 e) (Draws.now_consent e) w
              latest db1 with
      | (Raise err, db2) => (Crashed err, db2)
      | (Ok _, db2) => (Finished, self_service (Draws.now_revoke e) w db2)
      end
  end.

(** The database after the runs [vs], each with its draws and the values
    of its widgets. *)
Definition visits (vs : list (Draws.t * Widgets.t)) (db : Db) : Db :=
  fold_left (fun d v => snd (page (fst v) (snd v) d)) vs db.

(** The value of the column "Aktiv" of a listed row:
    [bool(is_granted) and not revoked_at]. *)
Definition Aktiv (s : Selected.row) : bool :=
  negb (Selected.is_granted s =? 0) && negb (truthy (Selected.revoked_at s)).

(** The text snapshot of the record is a stored German text, and its hash
    is the digest of the body of that text. *)
Definition bound_to_text (db : Db) (r : Consent.row) : Prop :=
  exists t,
    In t (consent_texts db)
    /\ ConsentText.id t = Consent.consent_text_id r
    /\ ConsentText.version t = Consent.consent_text_version r
    /\ ConsentText.body_hash t = Consent.consent_text_hash r
    /\ ConsentText.language t = "de"
    /\ Consent.consent_text_hash r = sha256_hex (ConsentText.body t).

(** The purposes of the record are the four of the form, at least one of
    them granted. *)
Definition purposeful (r : Consent.row) : Prop :=
  exists b1 b2 b3 b4,
    Consent.purposes_json r
    = json.dumps [("newsletter", b1); ("produktinfos", b2);
                  ("feedback_kontakt", b3); ("datenanalyse_aggregiert", b4)]
    /\ b1 || b2 || b3 || b4 = true.

(** What the runs of the script keep true of a database. *)
Definition well_bound (db : Db) : Prop :=
  Forall (bound_to_text db) (consents db)
  /\ Forall purposeful (consents db)
  /\ Forall (fun t => ConsentText.body_hash t
                      = sha256_hex (ConsentText.body t))
            (consent_texts db).

(** [a] may stand before [b] in a list that is newest first to the second
    by the clock: both were stamped by the clock, and the second of [b] is
    not after the second of [a]. *)
Definition not_older_by_the_clock (a b : Selected.row) : Prop :=
  exists da db,
    datetime.valid da /\ datetime.valid db
    /\ Selected.created_at a = datetime.isoformat da
    /\ Selected.created_at b = datetime.isoformat db
    /\ datetime_compare (to_second db) (to_second da) <> Gt.

(** ** Three visits of the page *)

Module Visit.

Definition blank : Widgets.t :=
  Widgets.mk "v1.0" "de" "Titel" "Hello" false false false false false
    EmptyString EmptyString false false false EmptyString EmptyString false.

(** The operator saves the text "v1.0". *)
Definition operator : Widgets.t :=
  Widgets.mk "v1.0" "de" "Titel" "Hello" true false false false false
    EmptyString EmptyString false false false EmptyString EmptyString false.

(** A subject ticks the newsletter and both confirmations and types an
    address with white space around it. *)
Definition subject : Widgets.t :=
  Widgets.mk "v1.0" "de" "Titel" "Hello" false true false false false
    "A" "  a@example.com " true true true EmptyString EmptyString false.

(** The subject comes back, types the address and revokes. *)
Definition revoker : Widgets.t :=
  Widgets.mk "v1.0" "de" "Titel" "Hello" false false false false false
    EmptyString EmptyString false false false "a@example.com "
    Session.id_Y true.

Definition draws_1 : Draws.t :=
  Draws.mk Session.t0 Session.id_X Session.t0 Session.t0.
Definition draws_2 : Draws.t :=
  Draws.mk Session.t2 Session.id_Y Session.t2 Session.t2.
Definition draws_3 : Draws.t :=
  Draws.mk Session.t3 Session.id_Z Session.t3 Session.t3.

Definition db_1 : Db := visits [(draws_1, operator)] init_db.
Definition db_2 : Db :=
  visits [(draws_1, operator); (draws_2, subject)] init_db.
Definition db_3 : Db :=
  visits [(draws_1, operator); (draws_2, subject); (draws_3, revoker)] init_db.

Definition record : Consent.row :=
  Consent.mk Session.id_Y "2024-01-01T10:30:15.900000+00:00"
    (Some "a@example.com") (Some "A")
    (json.dumps [("newsletter", true); ("produktinfos", false);
                 ("feedback_kontakt", false);
                 ("datenanalyse_aggregiert", false)])
    1 "v1.0" Session.hash_Hello 1 None None.

Definition latest_text : ConsentText.row :=
  ConsentText.mk 2 "v1.1" "de" "Titel" "Hello again"
    (sha256_hex "Hello again") "2024-01-02T08:00:00.000005+00:00".

Definition texts : list call :=
  [Upsert_consent_text Session.t0 "v1.0" "de" "Titel" "Hello";
   Upsert_consent_text Session.t3 "v1.1" "de" "Titel" "Hello again";
   Upsert_consent_text Session.t4 "v2.0" "en" "Title" "Hello"].

Definition calls : list call :=
  [Upsert_consent_text Session.t0 "v1.0" "de" "Titel" "Hello";
   Save_consent Session.id_X Session.t1 None None Session.purposes
     Session.latest;
   Save_consent Session.id_Y Session.t2 (Some "a@example.com") None
     Session.purposes Session.latest;
   Revoke_consent Session.t3 Session.id_X default_note].

End Visit.

(** ** The definitions at work *)

Example sha256_constants :
  hashlib.K = hashlib.K_of_primes /\ hashlib.H0 = hashlib.H0_of_primes
  /\ nth 0 hashlib.K 0 = 0x428a2f98 /\ nth 63 hashlib.K 0 = 0xc67178f2
  /\ nth 0 hashlib.H0 0 = 0x6a09e667 /\ nth 7 hashlib.H0 0 = 0x5be0cd19.
Proof. vm_compute. repeat split; reflexivity. Qed.

Example sha256_hex_empty :
  sha256_hex EmptyString
  = "e3b0c44298fc1c149afbf4c8996fb92427ae41e4649b934ca495991b7852b855".
Proof. vm_compute. reflexivity. Qed.

Example sha256_hex_abc :
  sha256_hex "abc"
  = "ba7816bf8f01cfea414140de5dae2223b00361a396177a9cb410ff61f20015ad".
Proof. vm_compute. reflexivity. Qed.

Example sha256_hex_two_blocks :
  sha256_hex "abcdbcdecdefdefgefghfghighijhijkijkljklmklmnlmnomnopnopq"
  = "248d6a61d20638b8e5c026930c3e6039a33ce45964ff2167f6ecedd419db06c1".
Proof. vm_compute. reflexivity. Qed.

Example sha256_hex_Hello :
  sha256_hex "Hello"
  = "185f8db32271fe25f561a6fc938b2e264306ec304eda518007d1764826381969".
Proof. vm_compute. reflexivity. Qed.

Example isoformat_micro :
  datetime.isoformat (datetime.mk 2024 3 9 7 5 1 250)
  = "2024-03-09T07:05:01.000250+00:00".
Proof. reflexivity. Qed.

Example isoformat_whole :
  datetime.isoformat (datetime.mk 2024 3 9 7 5 1 0)
  = "2024-03-09T07:05:01+00:00".
Proof. reflexivity. Qed.

Example datetime_drops_fraction :
  sqlite.datetime "2024-03-09T07:05:01.900000+00:00" = Some "2024-03-09 07:05:01"
  /\ sqlite.datetime "2024-03-09T07:05:01+00:00" = Some "2024-03-09 07:05:01".
Proof. split; reflexivity. Qed.

Example datetime_rolls_over :
  sqlite.datetime "9999-12-31T23:59:59.999499+00:00"
  = Some "9999-12-31 23:59:59"
  /\ sqlite.datetime "9999-12-31T23:59:59.999500+00:00" = None
  /\ sqlite.datetime "9999-12-31T23:59:58.999999+00:00"
     = Some "9999-12-31 23:59:58".
Proof. vm_compute. repeat split; reflexivity. Qed.

Example session_list_next_day :
  consents Session.db5
  = [Session.record_X; Session.record_Y; Session.record_Z]
  /\ list_consents None Session.db5
     = [select Session.record_Z; select Session.record_X;
        select Session.record_Y].
Proof. vm_compute. split; reflexivity. Qed.

Example dumps_purposes :
  let q := String json.quote EmptyString in
  json.dumps [("newsletter", true); ("produktinfos", false)]
  = ("{" ++ q ++ "newsletter" ++ q ++ ": true, "
         ++ q ++ "produktinfos" ++ q ++ ": false}")%string
  /\ json.dumps [] = "{}".
Proof. split; reflexivity. Qed.

Example session_text :
  upsert_consent_text Session.t0 "v1.0" "de" "Titel" "Hello" init_db
  = ("185f8db32271fe25f561a6fc938b2e264306ec304eda518007d1764826381969",
     Session.db1)
  /\ get_latest_consent_text "de" Session.db1 = Some Session.latest
  /\ get_latest_consent_text "en" Session.db1 = None.
Proof. vm_compute. repeat split; reflexivity. Qed.

Example session_tables :
  consents Session.db2 = [Session.record_X]
  /\ consents Session.db3 = [Session.record_X; Session.record_Y]
  /\ consents Session.db4 = [Session.revoked_X; Session.record_Y]
  /\ Session.db4
     = run [Upsert_consent_text Session.t0 "v1.0" "de" "Titel" "Hello";
            Save_consent Session.id_X Session.t1 None None Session.purposes
              Session.latest;
            Save_consent Session.id_Y Session.t2 (Some "a@example.com") None
              Session.purposes Session.latest;
            Revoke_consent Session.t3 Session.id_X default_note] init_db.
Proof. vm_compute. repeat split; reflexivity. Qed.

Example session_list :
  list_consents None Session.db2 = [select Session.record_X]
  /\ list_consents None Session.db4
     = [select Session.revoked_X; select Session.record_Y]
  /\ list_consents (Some "a@example.com") Session.db4
     = [select Session.record_Y]
  /\ list_consents (Some "A@example.com") Session.db4 = [].
Proof. vm_compute. repeat split; reflexivity. Qed.

(** ** The order of text *)

Lemma ascii_compare_refl (c : ascii) : Ascii.compare c c = Eq.
Proof. unfold Ascii.compare. apply N.compare_refl. Qed.

Lemma string_compare_refl (s : string) : String.compare s s = Eq.
Proof.
  induction s as [|c s IH]; simpl; [reflexivity|].
  now rewrite ascii_compare_refl.
Qed.

Lemma text_leb_refl (s : string) : text_leb s s = true.
Proof. unfold text_leb, String.leb. now rewrite string_compare_refl. Qed.

Lemma text_leb_total (a b : string) : text_leb a b = true \/ text_leb b a = true.
Proof. apply String.leb_total. Qed.

Lemma text_leb_trans (a b c : string) :
  text_leb a b = true -> text_leb b c = true -> text_leb a c = true.
Proof.
  unfold text_leb, String.leb.
  revert b c; induction a as [|x a IH]; intros [|y b] [|z c]; simpl;
    try congruence.
  unfold Ascii.compare.
  destruct (N.compare_spec (N_of_ascii x) (N_of_ascii y)) as [Hxy|Hxy|Hxy];
    destruct (N.compare_spec (N_of_ascii y) (N_of_ascii z)) as [Hyz|Hyz|Hyz];
    try congruence; intros H1 H2.
  - rewrite Hxy, Hyz, N.compare_refl. now apply IH with b.
  - rewrite Hxy. now apply N.compare_lt_iff in Hyz as ->.
  - rewrite <- Hyz. now apply N.compare_lt_iff in Hxy as ->.
  - assert (Hxz : (N_of_ascii x < N_of_ascii z)%N) by lia.
    now apply N.compare_lt_iff in Hxz as ->.
Qed.

Lemma sql_leb_total (a b : option string) : sql_leb a b = true \/ sql_leb b a = true.
Proof. destruct a, b; simpl; auto using text_leb_total. Qed.

Lemma sql_leb_trans (a b c : option string) :
  sql_leb a b = true -> sql_leb b c = true -> sql_leb a c = true.
Proof.
  destruct a, b, c; simpl; try congruence. apply text_leb_trans.
Qed.

(** ** ORDER BY: the rows are kept and come out in descending order *)

Section OrderByFacts.

Context {A K : Type}.
Variable key : A -> K.
Variable leb : K -> K -> bool.

Lemma insert_desc_perm (x : A) (l : list A) :
  Permutation (insert_desc key leb x l) (x :: l).
Proof.
  induction l as [|y l IH]; simpl; [reflexivity|].
  destruct (leb (key y) (key x)); [reflexivity|].
  rewrite IH. apply perm_swap.
Qed.

Lemma order_by_desc_perm (l : list A) :
  Permutation (order_by_desc key leb l) l.
Proof.
  induction l as [|x l IH]; simpl; [reflexivity|].
  rewrite insert_desc_perm. now apply perm_skip.
Qed.

Lemma order_by_desc_In (l : list A) (x : A) :
  In x (order_by_desc key leb l) <-> In x l.
Proof.
  split; apply Permutation_in;
    [apply order_by_desc_perm | symmetry; apply order_by_desc_perm].
Qed.

Hypothesis leb_total : forall a b, leb a b = true \/ leb b a = true.
Hypothesis leb_trans :
  forall a b c, leb a b = true -> leb b c = true -> leb a c = true.

Lemma insert_desc_sorted (x : A) (l : list A) :
  StronglySorted (desc key leb) l -> StronglySorted (desc key leb) (insert_desc key leb x l).
Proof.
  induction 1 as [|y l Hs IH Hy]; simpl.
  - repeat constructor.
  - destruct (leb (key y) (key x)) eqn:E.
    + constructor; [now constructor|].
      constructor; [exact E|].
      eapply Forall_impl; [|exact Hy].
      intros z Hz. unfold desc in *. now apply leb_trans with (key y).
    + constructor; [exact IH|].
      apply Forall_forall. intros z Hz.
      apply (Permutation_in _ (insert_desc_perm x l)) in Hz.
      destruct Hz as [<-|Hz].
      * unfold desc. destruct (leb_total (key x) (key y)); congruence.
      * rewrite Forall_forall in Hy. now apply Hy.
Qed.

Lemma order_by_desc_sorted (l : list A) :
  StronglySorted (desc key leb) (order_by_desc key leb l).
Proof.
  induction l as [|x l IH]; simpl; [constructor|].
  now apply insert_desc_sorted.
Qed.

(** The first row of the result, the one [LIMIT 1] keeps, has the greatest
    key; there is one unless there is no row at all. *)
Lemma order_by_desc_head (l : list A) :
  match hd_error (order_by_desc key leb l) with
  | Some r => In r l /\ forall r', In r' l -> leb (key r') (key r) = true
  | None => l = []
  end.
Proof.
  pose proof (order_by_desc_sorted l) as Hs.
  pose proof (order_by_desc_perm l) as Hp.
  destruct (order_by_desc key leb l) as [|r s]; simpl.
  - now apply Permutation_nil.
  - split.
    + apply (Permutation_in _ Hp). now left.
    + intros r' Hr'. apply (Permutation_in _ (Permutation_sym Hp)) in Hr'.
      inversion Hs as [|? ? _ Hall]; subst.
      destruct Hr' as [<-|Hr'].
      * destruct (leb_total (key r) (key r)); assumption.
      * rewrite Forall_forall in Hall. now apply Hall.
Qed.

End OrderByFacts.

(** A [WHERE] clause keeps the same rows whatever the order of the scan. *)
Lemma filter_perm {Row : Type} (keep : Row -> bool) :
  forall rows rows' : list Row,
    Permutation rows rows' ->
    Permutation (filter keep rows) (filter keep rows').
Proof.
  induction 1 as [|x l l' _ IH|x y l|l l' l'' _ IH1 _ IH2]; simpl.
  - constructor.
  - destruct (keep x); [now apply perm_skip|exact IH].
  - destruct (keep x), (keep y); try reflexivity. apply perm_swap.
  - now transitivity (filter keep l').
Qed.

(** ** datetime() on what isoformat writes *)

Lemma code_of_digit (x : Z) :
  Z.of_nat (nat_of_ascii (datetime.digit x)) = 48 + x mod 10.
Proof.
  unfold datetime.digit.
  assert (H : 0 <= x mod 10 < 10) by (apply Z.mod_pos_bound; lia).
  rewrite nat_ascii_embedding; lia.
Qed.

Lemma is_digit_digit (x : Z) : sqlite.is_digit (datetime.digit x) = true.
Proof.
  unfold sqlite.is_digit. rewrite code_of_digit.
  assert (H : 0 <= x mod 10 < 10) by (apply Z.mod_pos_bound; lia).
  apply andb_true_intro. split; apply Z.leb_le; lia.
Qed.

Lemma zfill_length (n : nat) (x : Z) : String.length (datetime.zfill n x) = n.
Proof. induction n; simpl; congruence. Qed.

Lemma all_digits_zfill (n : nat) (x : Z) :
  sqlite.all_digits (datetime.zfill n x) = true.
Proof. induction n; simpl; [reflexivity|]. now rewrite is_digit_digit. Qed.

Lemma number_from_zfill (n : nat) (x acc : Z) :
  0 <= x ->
  sqlite.number_from acc (datetime.zfill n x)
  = acc * 10 ^ Z.of_nat n + x mod 10 ^ Z.of_nat n.
Proof.
  intros Hx. revert acc. induction n as [|n IH]; intros acc.
  - simpl. rewrite Z.mod_1_r. lia.
  - cbn [datetime.zfill sqlite.number_from].
    rewrite code_of_digit, IH.
    rewrite Nat2Z.inj_succ, Z.pow_succ_r by lia.
    assert (Hp : 0 < 10 ^ Z.of_nat n) by (apply Z.pow_pos_nonneg; lia).
    rewrite (Z.mul_comm 10 (10 ^ Z.of_nat n)).
    rewrite (Z.rem_mul_r x (10 ^ Z.of_nat n) 10) by lia.
    lia.
Qed.

Lemma digits_in_zfill (n : nat) (lo hi x : Z) :
  0 <= x < 10 ^ Z.of_nat n -> lo <= x <= hi ->
  sqlite.digits_in n lo hi (datetime.zfill n x) = true.
Proof.
  intros Hx Hr. unfold sqlite.digits_in.
  rewrite zfill_length, Nat.eqb_refl, all_digits_zfill.
  rewrite number_from_zfill by lia. rewrite Z.mod_small by lia. simpl.
  apply andb_true_intro. split; apply Z.leb_le; lia.
Qed.

Lemma substring_all (s : string) : substring 0 (String.length s) s = s.
Proof. induction s; simpl; congruence. Qed.

Lemma substring_none (s : string) : substring 0 0 s = EmptyString.
Proof. now destruct s. Qed.

Lemma string_of_length_2 (s : string) :
  String.length s = 2%nat ->
  exists a b, s = String a (String b EmptyString).
Proof.
  destruct s as [|a [|b [|c s]]]; simpl; try discriminate. eauto.
Qed.

Lemma string_of_length_4 (s : string) :
  String.length s = 4%nat ->
  exists a b c d,
    s = String a (String b (String c (String d EmptyString))).
Proof.
  destruct s as [|a [|b [|c [|d [|e s]]]]]; simpl; try discriminate.
  eauto 6.
Qed.

Lemma number_of_zfill (n : nat) (x : Z) :
  0 <= x < 10 ^ Z.of_nat n ->
  sqlite.number_from 0 (datetime.zfill n x) = x.
Proof.
  intros H. rewrite number_from_zfill by lia. rewrite Z.mod_small; lia.
Qed.

Lemma string_of_length_6 (s : string) :
  String.length s = 6%nat ->
  exists a b c d e f,
    s = String a (String b (String c (String d (String e
          (String f EmptyString))))).
Proof.
  destruct s as [|a [|b [|c [|d [|e [|f [|g s]]]]]]]; simpl;
    try discriminate.
  eauto 8.
Qed.

(** The microseconds that [datetime] reads after the seconds of a text
    with a fraction. *)
Lemma fraction_of_digits (us : string) :
  String.length us = 6%nat ->
  sqlite.digits_in 6 0 999999 us = true ->
  sqlite.fraction (String "." (us ++ "+00:00"))
  = Some (sqlite.number_from 0 us).
Proof.
  intros L H.
  apply string_of_length_6 in L as (a & b & c & d & e & f & ->).
  unfold sqlite.fraction.
  cbn [append substring String.length Nat.sub].
  rewrite H. reflexivity.
Qed.

Lemma fraction_of_isoformat (d : datetime.t) :
  0 <= datetime.microsecond d <= 999999 ->
  sqlite.fraction (datetime.fraction_text d ++ "+00:00")
  = Some (datetime.microsecond d).
Proof.
  intros H. unfold datetime.fraction_text.
  destruct (Z.eqb_spec (datetime.microsecond d) 0) as [E|E].
  - rewrite E. reflexivity.
  - cbn [append]. rewrite fraction_of_digits.
    + rewrite number_of_zfill; [reflexivity|simpl; lia].
    + apply zfill_length.
    + apply digits_in_zfill; simpl; lia.
Qed.

(** The value of [datetime] on a text laid out as [isoformat] lays it
    out. *)
Lemma datetime_layout (Y M D h m s tail : string) (us : Z) :
  String.length Y = 4%nat -> String.length M = 2%nat ->
  String.length D = 2%nat -> String.length h = 2%nat ->
  String.length m = 2%nat -> String.length s = 2%nat ->
  sqlite.digits_in 4 0 9999 Y = true -> sqlite.digits_in 2 1 12 M = true ->
  sqlite.digits_in 2 1 31 D = true -> sqlite.digits_in 2 0 23 h = true ->
  sqlite.digits_in 2 0 59 m = true -> sqlite.digits_in 2 0 59 s = true ->
  sqlite.fraction tail = Some us ->
  sqlite.rolls_over (sqlite.number_from 0 Y) (sqlite.number_from 0 M)
    (sqlite.number_from 0 D) (sqlite.number_from 0 h)
    (sqlite.number_from 0 m) (sqlite.number_from 0 s) us = false ->
  sqlite.datetime
    ((Y ++ "-" ++ M ++ "-" ++ D) ++ "T" ++ (h ++ ":" ++ m ++ ":" ++ s) ++ tail)
  = Some ((Y ++ "-" ++ M ++ "-" ++ D) ++ " " ++ (h ++ ":" ++ m ++ ":" ++ s))%string.
Proof.
  intros LY LM LD Lh Lm Ls.
  apply string_of_length_4 in LY as (y1 & y2 & y3 & y4 & ->).
  apply string_of_length_2 in LM as (m1 & m2 & ->).
  apply string_of_length_2 in LD as (d1 & d2 & ->).
  apply string_of_length_2 in Lh as (h1 & h2 & ->).
  apply string_of_length_2 in Lm as (n1 & n2 & ->).
  apply string_of_length_2 in Ls as (s1 & s2 & ->).
  intros HY HM HD Hh Hm Hs Ht Hr.
  unfold sqlite.datetime.
  cbn [append substring String.length Nat.sub].
  rewrite Nat.sub_0_r, substring_all, !substring_none.
  rewrite Ht, HY, HM, HD, Hh, Hm, Hs, Hr. reflexivity.
Qed.

Lemma days_in_month_le (y m : Z) : datetime.days_in_month y m <= 31.
Proof.
  unfold datetime.days_in_month.
  destruct (m =? 2); [destruct (_ || _); lia|].
  destruct (_ || _); lia.
Qed.

(** On the text that [isoformat] writes for a datetime in range,
    [datetime] is its date and its time of day to the second: the
    microseconds are dropped. *)
Lemma datetime_of_isoformat (d : datetime.t) :
  datetime.valid d -> in_range d ->
  sqlite.datetime (datetime.isoformat d)
  = Some (datetime.date_text d ++ " " ++ datetime.time_text d)%string.
Proof.
  intros (Hy & Hm & Hd & Hh & Hmi & Hs & Hus) Hr.
  pose proof (days_in_month_le (datetime.year d) (datetime.month d)).
  unfold datetime.isoformat, datetime.date_text, datetime.time_text.
  apply datetime_layout with (us := datetime.microsecond d);
    try apply zfill_length;
    try (apply digits_in_zfill; simpl; lia).
  - now apply fraction_of_isoformat.
  - rewrite !number_of_zfill by (simpl; lia). exact Hr.
Qed.

(** On the text that [isoformat] writes for a datetime out of range,
    [datetime] is [NULL]. *)
Lemma datetime_out_of_range (d : datetime.t) :
  datetime.valid d -> ~ in_range d ->
  sqlite.datetime (datetime.isoformat d) = None.
Proof.
  intros (Hy & Hm & Hd & Hh & Hmi & Hs & Hus) Hr.
  pose proof (days_in_month_le (datetime.year d) (datetime.month d)).
  assert (R : sqlite.rolls_over (datetime.year d) (datetime.month d)
                (datetime.day d) (datetime.hour d) (datetime.minute d)
                (datetime.second d) (datetime.microsecond d) = true)
    by (unfold in_range in Hr; now destruct (sqlite.rolls_over _ _ _ _ _ _ _)).
  unfold datetime.isoformat, datetime.date_text, datetime.time_text.
  pose proof (zfill_length 4 (datetime.year d)) as LY.
  pose proof (zfill_length 2 (datetime.month d)) as LM.
  pose proof (zfill_length 2 (datetime.day d)) as LD.
  pose proof (zfill_length 2 (datetime.hour d)) as Lh.
  pose proof (zfill_length 2 (datetime.minute d)) as Lm.
  pose proof (zfill_length 2 (datetime.second d)) as Ls.
  pose proof (number_of_zfill 4 (datetime.year d)) as NY.
  pose proof (number_of_zfill 2 (datetime.month d)) as NM.
  pose proof (number_of_zfill 2 (datetime.day d)) as ND.
  pose proof (number_of_zfill 2 (datetime.hour d)) as Nh.
  pose proof (number_of_zfill 2 (datetime.minute d)) as Nm.
  pose proof (number_of_zfill 2 (datetime.second d)) as Ns.
  pose proof (fraction_of_isoformat d Hus) as F.
  revert LY LM LD Lh Lm Ls NY NM ND Nh Nm Ns F.
  generalize (datetime.zfill 4 (datetime.year d)) as Y.
  generalize (datetime.zfill 2 (datetime.month d)) as M.
  generalize (datetime.zfill 2 (datetime.day d)) as D.
  generalize (datetime.zfill 2 (datetime.hour d)) as h.
  generalize (datetime.zfill 2 (datetime.minute d)) as m.
  generalize (datetime.zfill 2 (datetime.second d)) as s.
  generalize (datetime.fraction_text d ++ "+00:00")%string as tail.
  intros tail s m h D M Y LY LM LD Lh Lm Ls NY NM ND Nh Nm Ns F.
  apply string_of_length_4 in LY as (y1 & y2 & y3 & y4 & ->).
  apply string_of_length_2 in LM as (m1 & m2 & ->).
  apply string_of_length_2 in LD as (d1 & d2 & ->).
  apply string_of_length_2 in Lh as (h1 & h2 & ->).
  apply string_of_length_2 in Lm as (n1 & n2 & ->).
  apply string_of_length_2 in Ls as (s1 & s2 & ->).
  unfold sqlite.datetime.
  cbn [append substring String.length Nat.sub].
  rewrite Nat.sub_0_r, substring_all, !substring_none.
  rewrite F, NY, NM, ND, Nh, Nm, Ns, R by (simpl; lia).
  cbn [negb]. now rewrite !andb_false_r.
Qed.

(** ** The text order of isoformat is the order of the datetimes *)

Lemma compare_app (a b s t : string) :
  String.length a = String.length b ->
  String.compare (a ++ s) (b ++ t)
  = then_compare (String.compare a b) (String.compare s t).
Proof.
  revert b. induction a as [|x a IH]; intros [|y b]; simpl; try discriminate.
  - reflexivity.
  - intros H. destruct (Ascii.compare x y); try reflexivity.
    apply IH. congruence.
Qed.

Lemma string_append_assoc (a b c : string) :
  ((a ++ b) ++ c = a ++ b ++ c)%string.
Proof. induction a; simpl; congruence. Qed.

Lemma compare_cons (c : ascii) (s t : string) :
  String.compare (String c s) (String c t) = String.compare s t.
Proof. simpl. now rewrite ascii_compare_refl. Qed.

Lemma compare_digit (x y : Z) :
  Ascii.compare (datetime.digit x) (datetime.digit y)
  = (x mod 10 ?= y mod 10).
Proof.
  unfold Ascii.compare. rewrite <- N2Z.inj_compare, <- !N_nat_Z.
  change ((Z.of_nat (nat_of_ascii (datetime.digit x))
           ?= Z.of_nat (nat_of_ascii (datetime.digit y)))
          = (x mod 10 ?= y mod 10)).
  rewrite !code_of_digit. apply Z.add_compare_mono_l.
Qed.

Lemma compare_high_low (P h1 l1 h2 l2 : Z) :
  0 <= l1 < P -> 0 <= l2 < P ->
  (h1 * P + l1 ?= h2 * P + l2) = then_compare (h1 ?= h2) (l1 ?= l2).
Proof.
  intros H1 H2.
  destruct (Z.compare_spec h1 h2) as [->|H|H]; simpl.
  - apply Z.add_compare_mono_l.
  - apply Z.compare_lt_iff. nia.
  - apply Z.compare_gt_iff. nia.
Qed.

Lemma compare_zfill_mod (n : nat) (x y : Z) :
  String.compare (datetime.zfill n x) (datetime.zfill n y)
  = (x mod 10 ^ Z.of_nat n ?= y mod 10 ^ Z.of_nat n).
Proof.
  induction n as [|n IH].
  - simpl. now rewrite !Z.mod_1_r.
  - cbn [datetime.zfill String.compare]. rewrite compare_digit, IH.
    rewrite Nat2Z.inj_succ, Z.pow_succ_r by lia.
    assert (Hp : 0 < 10 ^ Z.of_nat n) by (apply Z.pow_pos_nonneg; lia).
    rewrite (Z.mul_comm 10 (10 ^ Z.of_nat n)).
    rewrite !(Z.rem_mul_r _ (10 ^ Z.of_nat n) 10) by lia.
    rewrite !(Z.add_comm (_ mod 10 ^ Z.of_nat n)).
    rewrite !(Z.mul_comm (10 ^ Z.of_nat n)).
    rewrite compare_high_low by (apply Z.mod_pos_bound; lia).
    now destruct (_ mod 10 ?= _ mod 10).
Qed.

Lemma compare_zfill (n : nat) (x y : Z) :
  0 <= x < 10 ^ Z.of_nat n -> 0 <= y < 10 ^ Z.of_nat n ->
  String.compare (datetime.zfill n x) (datetime.zfill n y) = (x ?= y).
Proof.
  intros Hx Hy. rewrite compare_zfill_mod. now rewrite !Z.mod_small.
Qed.

Lemma compare_fraction (d1 d2 : datetime.t) :
  0 <= datetime.microsecond d1 <= 999999 ->
  0 <= datetime.microsecond d2 <= 999999 ->
  String.compare (datetime.fraction_text d1 ++ "+00:00")
                 (datetime.fraction_text d2 ++ "+00:00")
  = (datetime.microsecond d1 ?= datetime.microsecond d2).
Proof.
  intros H1 H2. unfold datetime.fraction_text.
  destruct (Z.eqb_spec (datetime.microsecond d1) 0) as [E1|E1];
    destruct (Z.eqb_spec (datetime.microsecond d2) 0) as [E2|E2].
  - rewrite E1, E2. reflexivity.
  - rewrite E1.
    assert (R : (0 ?= datetime.microsecond d2) = Lt)
      by (apply Z.compare_lt_iff; lia).
    rewrite R. reflexivity.
  - rewrite E2.
    assert (R : (datetime.microsecond d1 ?= 0) = Gt)
      by (apply Z.compare_gt_iff; lia).
    rewrite R. reflexivity.
  - cbn [append]. rewrite compare_cons.
    rewrite compare_app by (now rewrite !zfill_length).
    rewrite compare_zfill by (simpl; lia).
    rewrite string_compare_refl.
    now destruct (datetime.microsecond d1 ?= datetime.microsecond d2).
Qed.

(** [TEXT] values written by [isoformat] compare as the datetimes they
    spell. *)
Lemma compare_isoformat (d1 d2 : datetime.t) :
  datetime.valid d1 -> datetime.valid d2 ->
  String.compare (datetime.isoformat d1) (datetime.isoformat d2)
  = datetime_compare d1 d2.
Proof.
  intros (Hy1 & Hm1 & Hd1 & Hh1 & Hmi1 & Hs1 & Hu1)
         (Hy2 & Hm2 & Hd2 & Hh2 & Hmi2 & Hs2 & Hu2).
  pose proof (days_in_month_le (datetime.year d1) (datetime.month d1)).
  pose proof (days_in_month_le (datetime.year d2) (datetime.month d2)).
  unfold datetime.isoformat, datetime.date_text, datetime.time_text,
    datetime_compare.
  rewrite !string_append_assoc.
  repeat (first
    [ rewrite compare_app by (now rewrite !zfill_length)
    | rewrite compare_zfill by (simpl; lia)
    | progress cbn [append]
    | rewrite compare_cons ]).
  rewrite compare_fraction by assumption. reflexivity.
Qed.

(** [created_at] values written by this program are in text order exactly
    when they are in the order of the datetimes. *)
Lemma text_leb_isoformat (d1 d2 : datetime.t) :
  datetime.valid d1 -> datetime.valid d2 ->
  text_leb (datetime.isoformat d1) (datetime.isoformat d2) = true
  <-> datetime_compare d1 d2 <> Gt.
Proof.
  intros H1 H2. unfold text_leb, String.leb.
  rewrite (compare_isoformat d1 d2 H1 H2).
  destruct (datetime_compare d1 d2); split; congruence.
Qed.

(** Two datetimes that differ in the microsecond only have the same
    [datetime(created_at)], as long as both are in range. *)
Lemma datetime_ignores_microsecond (d : datetime.t) (us : Z) :
  datetime.valid d -> in_range d -> 0 <= us < 999500 ->
  sqlite.datetime
    (datetime.isoformat
       (datetime.mk (datetime.year d) (datetime.month d) (datetime.day d)
          (datetime.hour d) (datetime.minute d) (datetime.second d) us))
  = sqlite.datetime (datetime.isoformat d).
Proof.
  intros H Hr Hus. rewrite (datetime_of_isoformat d H Hr).
  rewrite datetime_of_isoformat; [reflexivity| |].
  - unfold datetime.valid in *. simpl. intuition lia.
  - unfold in_range, sqlite.rolls_over. simpl.
    replace (999500 <=? us) with false by (symmetry; apply Z.leb_gt; lia).
    now rewrite andb_false_r.
Qed.

Lemma to_second_in_range (d : datetime.t) : in_range (to_second d).
Proof.
  unfold in_range, sqlite.rolls_over, to_second. simpl.
  now rewrite andb_false_r.
Qed.

(** [datetime(created_at)] orders the texts that [isoformat] writes as
    their datetimes cut to the second. *)
Lemma sql_leb_datetime_isoformat (d1 d2 : datetime.t) :
  datetime.valid d1 -> datetime.valid d2 -> in_range d1 -> in_range d2 ->
  sql_leb (sqlite.datetime (datetime.isoformat d1))
          (sqlite.datetime (datetime.isoformat d2)) = true
  <-> datetime_compare (to_second d1) (to_second d2) <> Gt.
Proof.
  intros H1 H2 R1 R2.
  rewrite (datetime_of_isoformat d1 H1 R1), (datetime_of_isoformat d2 H2 R2).
  assert (V1 : datetime.valid (to_second d1))
    by (unfold datetime.valid in *; simpl; intuition lia).
  assert (V2 : datetime.valid (to_second d2))
    by (unfold datetime.valid in *; simpl; intuition lia).
  rewrite <- (compare_isoformat _ _ V1 V2).
  unfold sql_leb, text_leb, String.leb, datetime.isoformat.
  change (datetime.date_text (to_second d1)) with (datetime.date_text d1).
  change (datetime.date_text (to_second d2)) with (datetime.date_text d2).
  change (datetime.time_text (to_second d1)) with (datetime.time_text d1).
  change (datetime.time_text (to_second d2)) with (datetime.time_text d2).
  change (datetime.fraction_text (to_second d1)) with EmptyString.
  change (datetime.fraction_text (to_second d2)) with EmptyString.
  assert (LD : String.length (datetime.date_text d1)
               = String.length (datetime.date_text d2)) by reflexivity.
  assert (LT : String.length (datetime.time_text d1)
               = String.length (datetime.time_text d2)) by reflexivity.
  rewrite !(compare_app (datetime.date_text d1) (datetime.date_text d2))
    by exact LD.
  cbn [append]. rewrite !compare_cons.
  rewrite (compare_app (datetime.time_text d1) (datetime.time_text d2))
    by exact LT.
  rewrite string_compare_refl.
  destruct (String.compare (datetime.date_text d1) (datetime.date_text d2));
    destruct (String.compare (datetime.time_text d1) (datetime.time_text d2));
    simpl; split; congruence.
Qed.

(** ** Facts about the tables *)

Lemma id_in_use_In (cid : string) (t : list Consent.row) :
  id_in_use cid t = true <-> In cid (map Consent.id t).
Proof.
  unfold id_in_use. rewrite existsb_exists, in_map_iff.
  split; intros [r [H1 H2]]; exists r.
  - apply String.eqb_eq in H2. now split.
  - split; [assumption|]. now apply String.eqb_eq.
Qed.

Lemma text_exists_In (ct_id : Z) (t : list ConsentText.row) :
  text_exists ct_id t = true <-> In ct_id (map ConsentText.id t).
Proof.
  unfold text_exists. rewrite existsb_exists, in_map_iff.
  split; intros [r [H1 H2]]; exists r.
  - apply Z.eqb_eq in H2. now split.
  - split; [assumption|]. now apply Z.eqb_eq.
Qed.



Lemma run_app (cs cs' : list call) (db : Db) :
  run (cs ++ cs') db = run cs' (run cs db).
Proof. apply fold_left_app. Qed.

Lemma exec_consent_texts_grow (db : Db) (c : call) :
  exists l, consent_texts (exec db c) = consent_texts db ++ l.
Proof.
  destruct c; simpl; try (exists []; now rewrite app_nil_r).
  - eexists; reflexivity.
  - unfold save_consent.
    destruct (fits_int64 _); cbn [negb];
      [destruct (id_in_use _ _); [|destruct (negb _)]|]; simpl;
      exists []; now rewrite app_nil_r.
Qed.

Lemma upsert_keeps_consents (cs : list call) (db : Db) :
  Forall is_upsert cs -> consents (run cs db) = consents db.
Proof.
  intros H; revert db; induction H as [|c cs Hc _ IH]; intros db;
    [reflexivity|].
  simpl. rewrite IH. destruct c; simpl in Hc; try contradiction. reflexivity.
Qed.

Lemma revoke_row_revoked (now : datetime.t) (cid note : string) (r : Consent.row) :
  Consent.revoked_at r <> None -> revoke_row now cid note r = r.
Proof.
  unfold revoke_row. destruct (Consent.revoked_at r); [|congruence].
  now rewrite andb_false_r.
Qed.

Lemma revoke_row_other (now : datetime.t) (cid note : string) (r : Consent.row) :
  Consent.id r <> cid -> revoke_row now cid note r = r.
Proof.
  unfold revoke_row. intros H. apply String.eqb_neq in H. now rewrite H.
Qed.

Lemma revoke_row_active (now : datetime.t) (cid note : string) (r : Consent.row) :
  Consent.id r = cid -> Consent.revoked_at r = None ->
  revoke_row now cid note r
  = Consent.mk (Consent.id r) (Consent.created_at r) (Consent.subject_email r)
      (Consent.subject_name r) (Consent.purposes_json r)
      (Consent.consent_text_id r) (Consent.consent_text_version r)
      (Consent.consent_text_hash r) 0 (Some (datetime.isoformat now))
      (Some note).
Proof.
  unfold revoke_row. intros H1 H2. apply String.eqb_eq in H1.
  now rewrite H1, H2.
Qed.

Lemma revoke_row_idem (now now' : datetime.t) (cid note note' : string)
    (r : Consent.row) :
  revoke_row now' cid note' (revoke_row now cid note r) = revoke_row now cid note r.
Proof.
  destruct (string_dec (Consent.id r) cid) as [E|E].
  - destruct (Consent.revoked_at r) eqn:R.
    + rewrite (revoke_row_revoked now cid note r) by congruence.
      apply revoke_row_revoked. congruence.
    + rewrite (revoke_row_active now cid note r E R).
      apply revoke_row_revoked. simpl. congruence.
  - rewrite (revoke_row_other now cid note r E).
    now apply revoke_row_other.
Qed.

Lemma StronglySorted_map {A B : Type} (f : A -> B) (R : B -> B -> Prop)
    (l : list A) :
  StronglySorted (fun a b => R (f a) (f b)) l -> StronglySorted R (map f l).
Proof.
  induction 1 as [|x l _ IH Hx]; simpl; constructor; [exact IH|].
  apply Forall_map. exact Hx.
Qed.

Lemma save_consent_Ok uuid4 now e n p ct db cid db' :
  save_consent uuid4 now e n p ct db = (Ok cid, db') ->
  cid = uuid4
  /\ ~ In uuid4 (map Consent.id (consents db))
  /\ In (ConsentText.id ct) (map ConsentText.id (consent_texts db))
  /\ db' = mkDb (consent_texts db)
             (consents db ++
              [Consent.mk uuid4 (datetime.isoformat now) (or_None e)
                 (or_None n) (json.dumps p) (ConsentText.id ct)
                 (ConsentText.version ct) (ConsentText.body_hash ct)
                 1 None None]).
Proof.
  unfold save_consent.
  destruct (fits_int64 (ConsentText.id ct)); cbn [negb]; [|discriminate].
  destruct (id_in_use uuid4 (consents db)) eqn:Eu; [discriminate|].
  destruct (text_exists (ConsentText.id ct) (consent_texts db)) eqn:Et;
    simpl; [|discriminate].
  intros H; inversion H; subst. repeat split.
  - rewrite <- id_in_use_In. congruence.
  - now apply text_exists_In.
Qed.

Lemma filter_old_is_not_new (db : Db) (t : list Consent.row) :
  (forall r, In r t -> In r (consents db)) ->
  filter (fun r => is_new db (select r)) t = [].
Proof.
  induction t as [|r t IH]; intros H; simpl; [reflexivity|].
  unfold is_new at 1. simpl.
  assert (Hr : id_in_use (Consent.id r) (consents db) = true).
  { apply id_in_use_In, in_map, H. now left. }
  rewrite Hr. simpl. apply IH. intros q Hq. apply H. now right.
Qed.

(** Every [created_at] in a database filled by calls is a text written by
    [isoformat]. *)
Lemma created_at_stamped (cs : list call) :
  Forall clock_valid cs ->
  Forall (fun r => stamped (ConsentText.created_at r))
         (consent_texts (run cs init_db))
  /\ Forall (fun r => stamped (Consent.created_at r))
            (consents (run cs init_db)).
Proof.
  assert (Hrun : forall cs db,
    Forall clock_valid cs ->
    Forall (fun r => stamped (ConsentText.created_at r)) (consent_texts db)
    /\ Forall (fun r => stamped (Consent.created_at r)) (consents db) ->
    Forall (fun r => stamped (ConsentText.created_at r))
           (consent_texts (run cs db))
    /\ Forall (fun r => stamped (Consent.created_at r))
              (consents (run cs db))).
  { induction cs0 as [|c cs0 IH]; intros db Hcs [Ht Hc]; [now split|].
    inversion Hcs as [|? ? Hv Hcs']; subst. simpl. apply IH; [exact Hcs'|].
    destruct c; simpl in *; try (now split).
    - split; [|exact Hc]. apply Forall_app. split; [exact Ht|].
      constructor; [|constructor]. now exists now.
    - unfold save_consent.
      destruct (fits_int64 _); cbn [negb]; [|now split].
      destruct (id_in_use _ _); [now split|].
      destruct (negb _); [now split|]. simpl. split; [exact Ht|].
      apply Forall_app. split; [exact Hc|].
      constructor; [|constructor]. now exists now.
    - split; [exact Ht|]. rewrite Forall_forall in *. intros q Hq.
      apply in_map_iff in Hq as [r [<- Hr]]. specialize (Hc r Hr).
      unfold revoke_row. now destruct (_ && _). }
  intros Hcs. apply Hrun; [exact Hcs|]. split; constructor.
Qed.

Lemma fits_int64_spec (z : Z) :
  fits_int64 z = true <-> - 2 ^ 63 <= z < 2 ^ 63.
Proof.
  unfold fits_int64. rewrite andb_true_iff, Z.leb_le, Z.ltb_lt. tauto.
Qed.

Lemma listed_from_record (f : option string) (db : Db) (s : Selected.row) :
  In s (list_consents f db) ->
  exists r, In r (consents db) /\ s = select r
            /\ (truthy f = true -> Consent.subject_email r = f).
Proof.
  unfold list_consents. intros H.
  apply in_map_iff in H as [r [<- Hr]].
  apply order_by_desc_In in Hr.
  exists r. unfold matching in Hr.
  destruct f as [f|]; [|now repeat split].
  destruct (truthy (Some f)) eqn:T; [|now repeat split].
  apply filter_In in Hr as [Hr He]. repeat split; [exact Hr|].
  intros _. unfold sql_eqb in He.
  destruct (Consent.subject_email r) as [v|]; [|discriminate].
  apply String.eqb_eq in He. now subst.
Qed.

Lemma StronglySorted_weaken {A : Type} (R R' : A -> A -> Prop) (l : list A) :
  (forall a b, In a l -> In b l -> R a b -> R' a b) ->
  StronglySorted R l -> StronglySorted R' l.
Proof.
  intros H Hs. induction Hs as [|x l Hs IH Hx]; constructor.
  - apply IH. intros a b Ha Hb. apply H; now right.
  - rewrite Forall_forall in *. intros y Hy.
    apply H; [now left|now right|now apply Hx].
Qed.

(** Every [created_at] of a record in a database filled by calls whose
    clocks were in range is a text that [datetime] reads. *)
Lemma created_at_readable (cs : list call) :
  Forall clock_in_range cs ->
  Forall (fun r => readable (Consent.created_at r))
         (consents (run cs init_db)).
Proof.
  assert (Hrun : forall cs db,
    Forall clock_in_range cs ->
    Forall (fun r => readable (Consent.created_at r)) (consents db) ->
    Forall (fun r => readable (Consent.created_at r))
           (consents (run cs db))).
  { induction cs0 as [|c cs0 IH]; intros db Hcs Hc; [exact Hc|].
    inversion Hcs as [|? ? Hv Hcs']; subst. simpl. apply IH; [exact Hcs'|].
    destruct c; simpl in *; try exact Hc.
    - unfold save_consent.
      destruct (fits_int64 _); cbn [negb]; [|exact Hc].
      destruct (id_in_use _ _); [exact Hc|].
      destruct (negb _); [exact Hc|]. simpl.
      apply Forall_app. split; [exact Hc|].
      constructor; [|constructor]. exists now. simpl. tauto.
    - rewrite Forall_forall in *. intros q Hq.
      apply in_map_iff in Hq as [r [<- Hr]]. specialize (Hc r Hr).
      unfold revoke_row. now destruct (_ && _). }
  intros Hcs. apply Hrun; [exact Hcs|]. constructor.
Qed.

(** On a table whose [created_at] are texts that [datetime] reads, no row
    of a listing stands before a row whose record was created in a later
    second. *)
Lemma list_consents_by_the_clock (email_filter : option string) (db : Db) :
  Forall (fun r => readable (Consent.created_at r)) (consents db) ->
  StronglySorted not_older_by_the_clock (list_consents email_filter db).
Proof.
  intros Hst. rewrite Forall_forall in Hst.
  apply StronglySorted_weaken with (R := not_older_to_the_second).
  - intros a b Ha Hb Hab.
    apply listed_from_record in Ha as (ra & Hra & -> & _).
    apply listed_from_record in Hb as (rb & Hrb & -> & _).
    destruct (Hst ra Hra) as (da & Va & Ra & Ea).
    destruct (Hst rb Hrb) as (db0 & Vb & Rb & Eb).
    exists da, db0. simpl.
    split; [exact Va|]. split; [exact Vb|].
    split; [exact Ea|]. split; [exact Eb|].
    unfold not_older_to_the_second in Hab. simpl in Hab.
    rewrite Ea, Eb in Hab.
    now apply sql_leb_datetime_isoformat in Hab.
  - unfold list_consents. apply StronglySorted_map.
    apply (order_by_desc_sorted
             (fun r => sqlite.datetime (Consent.created_at r)) sql_leb
             sql_leb_total sql_leb_trans).
Qed.

(** ** The claims *)

(** C1. A record that [save_consent] has created carries the id, version
    and hash of the snapshot row it was given; calls of
    [upsert_consent_text] made afterwards leave the table [consents] as it
    is; and [list_consents()] then shows exactly one row whose id no record
    had before the save, the row of that record, which is the only record
    under that id. *)
Theorem snapshot_immutable :
  forall uuid4 now e n p ct db cid db1 cs,
    save_consent uuid4 now e n p ct db = (Ok cid, db1) ->
    Forall is_upsert cs ->
    exists r,
      consents db1 = consents db ++ [r]
      /\ Consent.id r = cid
      /\ Consent.consent_text_id r = ConsentText.id ct
      /\ Consent.consent_text_version r = ConsentText.version ct
      /\ Consent.consent_text_hash r = ConsentText.body_hash ct
      /\ consents (run cs db1) = consents db1
      /\ filter (is_new db) (list_consents None (run cs db1)) = [select r]
      /\ filter (fun q => String.eqb (Consent.id q) cid)
                (consents (run cs db1)) = [r].
Proof.
  intros uuid4 now e n p ct db cid db1 cs Hsave Hcs.
  apply save_consent_Ok in Hsave as [-> [Hfresh [_ ->]]].
  eexists. split; [reflexivity|].
  repeat split; try reflexivity.
  - now apply upsert_keeps_consents.
  - unfold list_consents. rewrite upsert_keeps_consents by assumption.
    simpl. rewrite filter_map_swap.
    match goal with |- map select ?l = _ =>
      assert (Hl : l = [Consent.mk uuid4 (datetime.isoformat now) (or_None e)
                          (or_None n) (json.dumps p) (ConsentText.id ct)
                          (ConsentText.version ct) (ConsentText.body_hash ct)
                          1 None None]) end.
    { apply Permutation_length_1_inv. symmetry.
      etransitivity; [apply filter_perm, order_by_desc_perm|].
      rewrite filter_app, filter_old_is_not_new by auto. simpl.
      unfold is_new. simpl.
      destruct (id_in_use uuid4 (consents db)) eqn:E; [|reflexivity].
      apply id_in_use_In in E. contradiction. }
    now rewrite Hl.
  - rewrite upsert_keeps_consents by assumption. simpl.
    rewrite filter_app. simpl. rewrite String.eqb_refl.
    replace (filter _ (consents db)) with (@nil Consent.row); [reflexivity|].
    symmetry. induction (consents db) as [|q t IH]; [reflexivity|].
    simpl in *. destruct (String.eqb (Consent.id q) uuid4) eqn:E.
    + apply String.eqb_eq in E. exfalso. apply Hfresh. now left.
    + apply IH. tauto.
Qed.

(** C2. On a record whose [revoked_at] is null, [revoke_consent id note]
    sets [is_granted] to 0, [revoked_at] to the current UTC time and
    [revocation_note] to [note] and keeps every other column; a row whose
    [revoked_at] is not null, or whose id is another, is left as it is. *)
Theorem revoke_consent_active :
  forall now cid note db i r,
    nth_error (consents db) i = Some r ->
    Consent.id r = cid ->
    Consent.revoked_at r = None ->
    let db' := revoke_consent now cid note db in
    nth_error (consents db') i
    = Some (Consent.mk (Consent.id r) (Consent.created_at r)
              (Consent.subject_email r) (Consent.subject_name r)
              (Consent.purposes_json r) (Consent.consent_text_id r)
              (Consent.consent_text_version r) (Consent.consent_text_hash r)
              0 (Some (datetime.isoformat now)) (Some note))
    /\ consent_texts db' = consent_texts db
    /\ List.length (consents db') = List.length (consents db)
    /\ forall j q, nth_error (consents db) j = Some q ->
                   Consent.revoked_at q <> None \/ Consent.id q <> cid ->
                   nth_error (consents db') j = Some q.
Proof.
  intros now cid note db i r Hi Hid Hrev db'. subst db'. simpl.
  repeat split.
  - rewrite nth_error_map, Hi. simpl. f_equal.
    now apply revoke_row_active.
  - apply length_map.
  - intros j q Hj Hq. rewrite nth_error_map, Hj. simpl. f_equal.
    destruct Hq; [now apply revoke_row_revoked|now apply revoke_row_other].
Qed.

(** C3. A second [revoke_consent] on a record leaves the database exactly
    as the first one left it, and [revoke_consent] leaves the whole
    database unchanged when every record with that id is already revoked,
    in particular when no record has that id; it has no failing outcome. *)
Theorem revoke_consent_noop :
  forall now now' cid note note' db,
    revoke_consent now' cid note' (revoke_consent now cid note db)
    = revoke_consent now cid note db
    /\ ((forall r, In r (consents db) -> Consent.id r = cid ->
                   Consent.revoked_at r <> None) ->
        revoke_consent now cid note db = db)
    /\ (~ In cid (map Consent.id (consents db)) ->
        revoke_consent now cid note db = db).
Proof.
  intros now now' cid note note' db.
  assert (Hguard : (forall r, In r (consents db) -> Consent.id r = cid ->
                              Consent.revoked_at r <> None) ->
                   revoke_consent now cid note db = db).
  { intros H. unfold revoke_consent. destruct db as [ts cs]. simpl in *.
    f_equal. rewrite <- (map_id cs) at 2. apply map_ext_in.
    intros r Hr. destruct (string_dec (Consent.id r) cid) as [E|E].
    - apply revoke_row_revoked. now apply H.
    - now apply revoke_row_other. }
  repeat split.
  - unfold revoke_consent. simpl. f_equal. rewrite map_map.
    apply map_ext. intros r. apply revoke_row_idem.
  - exact Hguard.
  - intros Hno. apply Hguard. intros r Hr Hid. exfalso. apply Hno.
    rewrite <- Hid. now apply in_map.
Qed.


(** C5. [get_latest_consent_text lang] returns a row of [consent_texts]
    whose language is [lang] and whose [created_at] no row of that language
    exceeds, and it returns [None] exactly when no row has that language. *)
Theorem get_latest_consent_text_max :
  forall lang db,
    match get_latest_consent_text lang db with
    | Some r =>
        In r (consent_texts db) /\ ConsentText.language r = lang
        /\ forall r', In r' (consent_texts db) ->
                      ConsentText.language r' = lang ->
                      text_leb (ConsentText.created_at r')
                               (ConsentText.created_at r) = true
    | None =>
        forall r', In r' (consent_texts db) -> ConsentText.language r' <> lang
    end.
Proof.
  intros lang db. unfold get_latest_consent_text.
  pose proof (order_by_desc_head ConsentText.created_at text_leb
                text_leb_total text_leb_trans
                (filter (fun r => String.eqb (ConsentText.language r) lang)
                        (consent_texts db))) as H.
  destruct (hd_error _) as [r|].
  - destruct H as [Hin Hmax]. apply filter_In in Hin as [Hin Hl].
    apply String.eqb_eq in Hl. repeat split; try assumption.
    intros r' Hr' Hl'. apply Hmax. apply filter_In. split; [assumption|].
    now apply String.eqb_eq.
  - intros r' Hr' Hl'.
    assert (Hf : In r' (filter (fun r => String.eqb (ConsentText.language r) lang)
                               (consent_texts db))).
    { apply filter_In. split; [assumption|]. now apply String.eqb_eq. }
    rewrite H in Hf. contradiction.
Qed.

(** C6, as the code has it.  When the id of the snapshot row fits 64
    bits and is the id of a stored consent text, and the identifier drawn
    is the id of no record, [save_consent] appends exactly one record, with
    that identifier, [created_at] the current UTC time, [is_granted] 1,
    [revoked_at] and [revocation_note] null and [consent_text_id],
    [consent_text_version], [consent_text_hash] taken from the snapshot
    row, keeps every other row, and returns the identifier.  In every
    other case it raises and stores nothing: [OverflowError] when the id
    of the snapshot row does not fit 64 bits, else
    [sqlite3.IntegrityError].  So an identifier it returns is the id of no
    earlier record. *)
Theorem save_consent_inserts_or_raises :
  forall uuid4 now e n p ct db,
    let r := Consent.mk uuid4 (datetime.isoformat now) (or_None e)
               (or_None n) (json.dumps p) (ConsentText.id ct)
               (ConsentText.version ct) (ConsentText.body_hash ct)
               1 None None in
    let fits := - 2 ^ 63 <= ConsentText.id ct < 2 ^ 63 in
    (fits ->
     ~ In uuid4 (map Consent.id (consents db)) ->
     In (ConsentText.id ct) (map ConsentText.id (consent_texts db)) ->
     save_consent uuid4 now e n p ct db
     = (Ok uuid4, mkDb (consent_texts db) (consents db ++ [r])))
    /\ (~ fits ->
        save_consent uuid4 now e n p ct db = (Raise OverflowError, db))
    /\ (fits ->
        In uuid4 (map Consent.id (consents db))
        \/ ~ In (ConsentText.id ct) (map ConsentText.id (consent_texts db)) ->
        exists c,
          save_consent uuid4 now e n p ct db = (Raise (IntegrityError c), db))
    /\ (forall cid db', save_consent uuid4 now e n p ct db = (Ok cid, db') ->
        ~ In cid (map Consent.id (consents db))
        /\ consents db' = consents db ++ [r] /\ Consent.id r = cid).
Proof.
  intros uuid4 now e n p ct db r fits. subst r fits.
  split; [|split; [|split]].
  - intros Hfits Hfresh Htext. unfold save_consent.
    apply fits_int64_spec in Hfits. rewrite Hfits. cbn [negb].
    destruct (id_in_use uuid4 (consents db)) eqn:Eu.
    { apply id_in_use_In in Eu. contradiction. }
    apply text_exists_In in Htext. now rewrite Htext.
  - intros Hfits. unfold save_consent.
    destruct (fits_int64 (ConsentText.id ct)) eqn:F; [|reflexivity].
    apply fits_int64_spec in F. contradiction.
  - intros Hfits H. unfold save_consent.
    apply fits_int64_spec in Hfits. rewrite Hfits. cbn [negb].
    destruct (id_in_use uuid4 (consents db)) eqn:Eu; [eexists; reflexivity|].
    destruct (text_exists (ConsentText.id ct) (consent_texts db)) eqn:Et;
      simpl; [|eexists; reflexivity].
    exfalso. destruct H as [H|H].
    + apply id_in_use_In in H. congruence.
    + apply H. now apply text_exists_In.
  - intros cid db' H. repeat split.
    + apply save_consent_Ok in H as [-> [H _]]. exact H.
    + apply save_consent_Ok in H as [_ [_ [_ ->]]]. reflexivity.
    + apply save_consent_Ok in H as [-> _]. reflexivity.
Qed.

(** C7, as the code has it.  With a filter that is not the empty string,
    [list_consents] returns the rows of exactly the records whose
    [subject_email] is that string, byte for byte; without a filter, and
    with the empty string, it returns the rows of all records; and, when
    every [created_at] of the table is an isoformat text of a UTC datetime
    that [datetime] reads, as the program writes them, no row stands before
    a row whose record was created in a later second. *)
Theorem list_consents_filter_and_order :
  forall db,
    (forall f, f <> EmptyString ->
       Permutation (list_consents (Some f) db)
                   (map select (filter (email_equals f) (consents db))))
    /\ Permutation (list_consents None db) (map select (consents db))
    /\ Permutation (list_consents (Some EmptyString) db)
                   (map select (consents db))
    /\ (Forall (fun r => readable (Consent.created_at r)) (consents db) ->
        forall email_filter,
          StronglySorted not_older_by_the_clock
            (list_consents email_filter db)).
Proof.
  intros db. repeat split.
  - intros f Hf. unfold list_consents. apply Permutation_map.
    rewrite order_by_desc_perm.
    destruct f as [|c f]; [congruence|]. simpl.
    erewrite filter_ext; [reflexivity|].
    intros r. unfold email_equals, sql_eqb.
    destruct (option_string_dec _ _) as [E|E].
    + rewrite E. apply String.eqb_refl.
    + destruct (Consent.subject_email r) as [v|]; [|reflexivity].
      apply String.eqb_neq. congruence.
  - unfold list_consents. simpl. apply Permutation_map, order_by_desc_perm.
  - unfold list_consents. simpl. apply Permutation_map, order_by_desc_perm.
  - intros Hst email_filter. now apply list_consents_by_the_clock.
Qed.

(** C8. A record whose [revoked_at] is set stays, at its place in the
    table and equal in every column, after any sequence of calls: it is
    not removed, its [revoked_at] is not cleared and its [is_granted] is
    not changed. *)
Theorem revoked_is_terminal :
  forall cs db i r t,
    nth_error (consents db) i = Some r ->
    Consent.revoked_at r = Some t ->
    nth_error (consents (run cs db)) i = Some r.
Proof.
  induction cs as [|c cs IH]; intros db i r t Hi Hr; [exact Hi|].
  simpl. apply IH with t; [|exact Hr].
  destruct c; simpl; try exact Hi.
  - unfold save_consent.
    destruct (fits_int64 _); cbn [negb]; [|exact Hi].
    destruct (id_in_use _ _); [exact Hi|].
    destruct (negb _); [exact Hi|]. simpl.
    rewrite nth_error_app1; [exact Hi|].
    apply nth_error_Some. congruence.
  - rewrite nth_error_map, Hi. simpl. f_equal.
    apply revoke_row_revoked. congruence.
Qed.

(** C9. In every database reached from the empty one by calls of the six
    functions, every record has [is_granted] 1 exactly when its
    [revoked_at] is null, and 0 otherwise. *)
Theorem is_granted_iff_not_revoked :
  forall cs, Forall granted_iff_active (consents (run cs init_db)).
Proof.
  assert (Hstep : forall db c, Forall granted_iff_active (consents db) ->
                               Forall granted_iff_active (consents (exec db c))).
  { intros db c H. destruct c; simpl; try exact H.
    - unfold save_consent.
      destruct (fits_int64 _); cbn [negb]; [|exact H].
      destruct (id_in_use _ _); [exact H|].
      destruct (negb _); [exact H|]. simpl.
      apply Forall_app. split; [exact H|].
      constructor; [|constructor]. unfold granted_iff_active. simpl.
      split; [tauto|now left].
    - rewrite Forall_forall in *. intros q Hq.
      apply in_map_iff in Hq as [r [<- Hr]].
      specialize (H r Hr). unfold revoke_row.
      destruct (_ && _); [|exact H].
      unfold granted_iff_active. simpl. split; [|now right].
      split; intros; discriminate. }
  assert (Hrun : forall cs db, Forall granted_iff_active (consents db) ->
                               Forall granted_iff_active (consents (run cs db))).
  { induction cs as [|c cs IH]; intros db H; [exact H|].
    simpl. apply IH. now apply Hstep. }
  intros cs. apply Hrun. constructor.
Qed.

(** C10. [list_consents] with the empty string as filter returns what it
    returns without a filter, every record, among them records whose
    [subject_email] is not the empty string. *)
Theorem list_consents_empty_filter :
  forall db,
    list_consents (Some EmptyString) db = list_consents None db
    /\ Permutation (list_consents (Some EmptyString) db)
                   (map select (consents db)).
Proof.
  intros db. split; [reflexivity|].
  unfold list_consents. simpl. apply Permutation_map, order_by_desc_perm.
Qed.

(** ** The claims on the session *)

(** C1 on the session: X's record keeps version "v1.0" and the hash of
    "Hello" while two newer texts are stored. *)
Lemma snapshot_immutable_witness :
  save_consent Session.id_X Session.t1 None None Session.purposes
    Session.latest Session.db1 = (Ok Session.id_X, Session.db2)
  /\ Forall is_upsert Session.new_texts
  /\ exists r,
       consents Session.db2 = consents Session.db1 ++ [r]
       /\ Consent.id r = Session.id_X
       /\ Consent.consent_text_id r = ConsentText.id Session.latest
       /\ Consent.consent_text_version r = ConsentText.version Session.latest
       /\ Consent.consent_text_hash r = ConsentText.body_hash Session.latest
       /\ consents (run Session.new_texts Session.db2) = consents Session.db2
       /\ filter (is_new Session.db1)
            (list_consents None (run Session.new_texts Session.db2))
          = [select r]
       /\ filter (fun q => String.eqb (Consent.id q) Session.id_X)
            (consents (run Session.new_texts Session.db2)) = [r].
Proof.
  assert (H1 : save_consent Session.id_X Session.t1 None None Session.purposes
                 Session.latest Session.db1 = (Ok Session.id_X, Session.db2))
    by (vm_compute; reflexivity).
  assert (H2 : Forall is_upsert Session.new_texts)
    by (repeat constructor).
  split; [exact H1|]. split; [exact H2|].
  exact (snapshot_immutable _ _ _ _ _ _ _ _ _ _ H1 H2).
Defined.

(** C2 on the session: the revocation of X's active record. *)
Lemma revoke_consent_active_witness :
  nth_error (consents Session.db3) 0 = Some Session.record_X
  /\ Consent.id Session.record_X = Session.id_X
  /\ Consent.revoked_at Session.record_X = None
  /\ nth_error (consents (revoke_consent Session.t3 Session.id_X default_note
                            Session.db3)) 0
     = Some Session.revoked_X.
Proof.
  assert (H1 : nth_error (consents Session.db3) 0 = Some Session.record_X)
    by (vm_compute; reflexivity).
  split; [exact H1|]. split; [reflexivity|]. split; [reflexivity|].
  exact (proj1 (revoke_consent_active Session.t3 Session.id_X default_note
                  Session.db3 0%nat Session.record_X H1 eq_refl eq_refl)).
Defined.

(** C3 on the session: X revokes a second time, and somebody revokes an id
    that no record has. *)
Lemma revoke_consent_noop_witness :
  revoke_consent Session.t4 Session.id_X "again" Session.db4 = Session.db4
  /\ ~ In Session.id_Z (map Consent.id (consents Session.db3))
  /\ revoke_consent Session.t3 Session.id_Z default_note Session.db3
     = Session.db3.
Proof.
  assert (H : ~ In Session.id_Z (map Consent.id (consents Session.db3))).
  { vm_compute. intros [E|[E|[]]]; discriminate E. }
  split; [|split; [exact H|]].
  - exact (proj1 (revoke_consent_noop Session.t3 Session.t4 Session.id_X
                    default_note "again" Session.db3)).
  - exact (proj2 (proj2 (revoke_consent_noop Session.t3 Session.t3
                           Session.id_Z default_note default_note
                           Session.db3)) H).
Defined.

(** C5 on the session: of two German texts and an English one, the later
    German one. *)
Lemma get_latest_consent_text_max_witness :
  let db := run Session.new_texts Session.db1 in
  let r := ConsentText.mk 2 "v1.1" "de" "Titel" "Hello again"
             (sha256_hex "Hello again") "2024-01-02T08:00:00.000005+00:00" in
  get_latest_consent_text "de" db = Some r
  /\ In r (consent_texts db) /\ ConsentText.language r = "de"
  /\ forall r', In r' (consent_texts db) ->
                ConsentText.language r' = "de" ->
                text_leb (ConsentText.created_at r')
                         (ConsentText.created_at r) = true.
Proof.
  intros db r.
  assert (E : get_latest_consent_text "de" db = Some r)
    by (vm_compute; reflexivity).
  split; [exact E|].
  pose proof (get_latest_consent_text_max "de" db) as H.
  rewrite E in H. exact H.
Defined.

(** C6 on the session: Y's consent is saved beside X's, and a snapshot row
    with an id of 2^63 is refused. *)
Lemma save_consent_inserts_or_raises_witness :
  - 2 ^ 63 <= ConsentText.id Session.latest < 2 ^ 63
  /\ ~ In Session.id_Y (map Consent.id (consents Session.db2))
  /\ In (ConsentText.id Session.latest)
        (map ConsentText.id (consent_texts Session.db2))
  /\ save_consent Session.id_Y Session.t2 (Some "a@example.com") None
       Session.purposes Session.latest Session.db2
     = (Ok Session.id_Y,
        mkDb (consent_texts Session.db2)
             (consents Session.db2 ++ [Session.record_Y]))
  /\ ~ (- 2 ^ 63 <= ConsentText.id Session.oversized < 2 ^ 63)
  /\ save_consent Session.id_Y Session.t2 (Some "a@example.com") None
       Session.purposes Session.oversized Session.db2
     = (Raise OverflowError, Session.db2).
Proof.
  assert (H0 : - 2 ^ 63 <= ConsentText.id Session.latest < 2 ^ 63)
    by (vm_compute; split; [discriminate|reflexivity]).
  assert (H1 : ~ In Session.id_Y (map Consent.id (consents Session.db2)))
    by (vm_compute; intros [E|[]]; discriminate E).
  assert (H2 : In (ConsentText.id Session.latest)
                  (map ConsentText.id (consent_texts Session.db2)))
    by (vm_compute; left; reflexivity).
  assert (H3 : ~ (- 2 ^ 63 <= ConsentText.id Session.oversized < 2 ^ 63))
    by (vm_compute; intros [_ E]; discriminate E).
  split; [exact H0|]. split; [exact H1|]. split; [exact H2|].
  split; [|split; [exact H3|]].
  - exact (proj1 (save_consent_inserts_or_raises Session.id_Y Session.t2
                    (Some "a@example.com") None Session.purposes
                    Session.latest Session.db2) H0 H1 H2).
  - exact (proj1 (proj2 (save_consent_inserts_or_raises Session.id_Y
                           Session.t2 (Some "a@example.com") None
                           Session.purposes Session.oversized Session.db2))
             H3).
Defined.

(** C7 on the session: Y's address as filter, and the order of the listing
    of X, Y and a record of the day after. *)
Lemma list_consents_filter_and_order_witness :
  "a@example.com" <> EmptyString
  /\ Permutation (list_consents (Some "a@example.com") Session.db3)
       (map select (filter (email_equals "a@example.com")
                           (consents Session.db3)))
  /\ Forall (fun r => readable (Consent.created_at r)) (consents Session.db5)
  /\ StronglySorted not_older_by_the_clock (list_consents None Session.db5).
Proof.
  assert (H : "a@example.com" <> EmptyString) by discriminate.
  assert (E : consents Session.db5
              = [Session.record_X; Session.record_Y; Session.record_Z])
    by (vm_compute; reflexivity).
  assert (R : Forall (fun r => readable (Consent.created_at r))
                     (consents Session.db5)).
  { rewrite E.
    constructor; [exists Session.t1|constructor; [exists Session.t2|
      constructor; [exists Session.t3|constructor]]];
      (split; [vm_compute; repeat split; discriminate|split; reflexivity]). }
  split; [exact H|]. split; [|split; [exact R|]].
  - exact (proj1 (list_consents_filter_and_order Session.db3)
             "a@example.com" H).
  - exact (proj2 (proj2 (proj2 (list_consents_filter_and_order Session.db5)))
             R None).
Defined.

(** C8 on the session: X's revoked record after more calls, two of them
    revocations of X. *)
Lemma revoked_is_terminal_witness :
  nth_error (consents Session.db4) 0 = Some Session.revoked_X
  /\ Consent.revoked_at Session.revoked_X
     = Some "2024-01-02T08:00:00.000005+00:00"
  /\ nth_error (consents (run Session.later_calls Session.db4)) 0
     = Some Session.revoked_X.
Proof.
  assert (H1 : nth_error (consents Session.db4) 0 = Some Session.revoked_X)
    by (vm_compute; reflexivity).
  split; [exact H1|]. split; [reflexivity|].
  exact (revoked_is_terminal Session.later_calls Session.db4 0%nat
           Session.revoked_X _ H1 eq_refl).
Defined.

(** ** Where the code differs from the claims *)

(** C6 as stated fails: a call whose snapshot row is not a stored text, a
    call that draws an id in use and a call whose snapshot row has an id
    of 2^63 raise and insert nothing. *)
Lemma save_consent_raises :
  save_consent Session.id_Y Session.t2 None None Session.purposes
    Session.stray Session.db2
  = (Raise (IntegrityError FOREIGN_KEY_constraint_failed), Session.db2)
  /\ save_consent Session.id_X Session.t2 None None Session.purposes
       Session.latest Session.db2
     = (Raise (IntegrityError UNIQUE_constraint_failed), Session.db2)
  /\ save_consent Session.id_Y Session.t2 None None Session.purposes
       Session.oversized Session.db2
     = (Raise OverflowError, Session.db2)
  /\ ~ (forall uuid4 now e n p ct db,
          exists cid db',
            save_consent uuid4 now e n p ct db = (Ok cid, db')
            /\ List.length (consents db') = S (List.length (consents db))).
Proof.
  assert (H : save_consent Session.id_Y Session.t2 None None Session.purposes
                Session.stray Session.db2
              = (Raise (IntegrityError FOREIGN_KEY_constraint_failed),
                 Session.db2))
    by (vm_compute; reflexivity).
  split; [exact H|]. split; [vm_compute; reflexivity|].
  split; [vm_compute; reflexivity|].
  intros C.
  destruct (C Session.id_Y Session.t2 None None Session.purposes
              Session.stray Session.db2) as (cid & db' & E & _).
  rewrite H in E. discriminate E.
Qed.

(** C7 as stated fails: with the empty string as filter the result holds a
    record whose [subject_email] is not the empty string, and two records
    created in the same second are listed the older one first. *)
Lemma list_consents_as_stated_fails :
  ~ (forall f db s, In s (list_consents (Some f) db) ->
                    Selected.subject_email s = Some f)
  /\ ~ (forall db, StronglySorted not_older (list_consents None db))
  /\ list_consents (Some EmptyString) Session.db3
     = [select Session.record_X; select Session.record_Y]
  /\ list_consents None Session.db3
     = [select Session.record_X; select Session.record_Y].
Proof.
  assert (L : list_consents None Session.db3
              = [select Session.record_X; select Session.record_Y])
    by (vm_compute; reflexivity).
  split; [|split; [|split; exact L]].
  - intros C.
    specialize (C EmptyString Session.db3 (select Session.record_Y)).
    assert (E : Selected.subject_email (select Session.record_Y)
                = Some EmptyString).
    { apply C. change (list_consents (Some EmptyString) Session.db3)
        with (list_consents None Session.db3). rewrite L. right. now left. }
    discriminate E.
  - intros C. specialize (C Session.db3). rewrite L in C.
    inversion C as [|? ? _ H]; subst.
    inversion H as [|? ? H1 _]; subst.
    unfold not_older in H1. vm_compute in H1. discriminate H1.
Qed.

(** ** More on ORDER BY *)

Section OrderByMore.

Context {A K : Type}.
Variable key : A -> K.
Variable leb : K -> K -> bool.


Lemma insert_desc_front (x : A) (s : list A) :
  (forall z, In z s -> leb (key z) (key x) = true) ->
  insert_desc key leb x s = x :: s.
Proof.
  destruct s as [|y s]; simpl; [reflexivity|].
  intros H. now rewrite (H y (or_introl eq_refl)).
Qed.

(** Sorting the images of the rows under a map that keeps the keys is
    mapping the sorted rows. *)
Lemma order_by_desc_map (g : A -> A) (l : list A) :
  (forall x, key (g x) = key x) ->
  order_by_desc key leb (map g l) = map g (order_by_desc key leb l).
Proof.
  intros Hg.
  assert (Hins : forall x s, insert_desc key leb (g x) (map g s)
                             = map g (insert_desc key leb x s)).
  { intros x s. induction s as [|y s IH]; simpl; [reflexivity|].
    rewrite !Hg. destruct (leb (key y) (key x)); simpl; [reflexivity|].
    now rewrite IH. }
  induction l as [|x l IH]; simpl; [reflexivity|].
  now rewrite IH, Hins.
Qed.

Hypothesis leb_total : forall a b, leb a b = true \/ leb b a = true.
Hypothesis leb_trans :
  forall a b c, leb a b = true -> leb b c = true -> leb a c = true.


Lemma filter_insert_desc (keep : A -> bool) (x : A) (s : list A) :
  StronglySorted (desc key leb) s ->
  filter keep (insert_desc key leb x s)
  = if keep x then insert_desc key leb x (filter keep s) else filter keep s.
Proof.
  induction 1 as [|y s Hs IH Hy]; simpl.
  - now destruct (keep x).
  - destruct (leb (key y) (key x)) eqn:E.
    + simpl. destruct (keep x); [|reflexivity].
      rewrite insert_desc_front; [reflexivity|].
      intros z Hz.
      assert (Hz' : In z (y :: s)).
      { destruct (keep y); [|right]; try (apply filter_In in Hz; tauto).
        destruct Hz as [<-|Hz]; [now left|right].
        apply filter_In in Hz. tauto. }
      destruct Hz' as [<-|Hz']; [exact E|].
      rewrite Forall_forall in Hy. apply leb_trans with (key y); [|exact E].
      now apply Hy.
    + simpl. rewrite IH.
      destruct (keep y), (keep x); simpl; try reflexivity.
      now rewrite E.
Qed.

(** A [WHERE] clause before the sort or a filter after it: the same rows
    in the same order. *)
Lemma filter_order_by_desc (keep : A -> bool) (l : list A) :
  filter keep (order_by_desc key leb l)
  = order_by_desc key leb (filter keep l).
Proof.
  induction l as [|x l IH]; simpl; [reflexivity|].
  rewrite filter_insert_desc
    by (apply order_by_desc_sorted; assumption).
  rewrite IH. now destruct (keep x).
Qed.

End OrderByMore.

(** ** The digest *)

Lemma hex_of_length (n : nat) (x : Z) : String.length (hashlib.hex_of n x) = n.
Proof. induction n; simpl; congruence. Qed.

Lemma string_length_append (a b : string) :
  String.length (a ++ b) = (String.length a + String.length b)%nat.
Proof. induction a; simpl; congruence. Qed.

Lemma hexdigest_length (digest : list Z) :
  String.length (hashlib.hexdigest digest) = (8 * List.length digest)%nat.
Proof.
  induction digest as [|w d IH]; [reflexivity|].
  change (hashlib.hexdigest (w :: d))
    with (hashlib.hex_of 8 w ++ hashlib.hexdigest d)%string.
  rewrite string_length_append, hex_of_length, IH. simpl. lia.
Qed.

Lemma compress_length (h block : list Z) :
  List.length h = 8%nat -> List.length (hashlib.compress h block) = 8%nat.
Proof.
  intros H. unfold hashlib.compress.
  rewrite length_map, length_combine, H. reflexivity.
Qed.

Lemma blocks_length (n : nat) (h bs : list Z) :
  List.length h = 8%nat -> List.length (hashlib.blocks n h bs) = 8%nat.
Proof.
  revert h bs. induction n as [|n IH]; intros h bs H; simpl; [exact H|].
  apply IH. now apply compress_length.
Qed.

Lemma sha256_hex_length (text : string) : String.length (sha256_hex text) = 64%nat.
Proof.
  unfold sha256_hex. rewrite hexdigest_length.
  unfold hashlib.sha256. now rewrite blocks_length.
Qed.

Lemma is_hex_char_hex_digit (d : Z) :
  0 <= d < 16 -> is_hex_char (hashlib.hex_digit d) = true.
Proof.
  intros H. unfold is_hex_char, hashlib.hex_digit.
  destruct (Z.ltb_spec d 10).
  - rewrite nat_ascii_embedding by lia.
    replace (Z.of_nat (Z.to_nat (48 + d))) with (48 + d) by lia.
    apply orb_true_intro. left.
    apply andb_true_intro. split; apply Z.leb_le; lia.
  - rewrite nat_ascii_embedding by lia.
    replace (Z.of_nat (Z.to_nat (87 + d))) with (87 + d) by lia.
    apply orb_true_intro. right.
    apply andb_true_intro. split; apply Z.leb_le; lia.
Qed.

Lemma all_chars_append (p : ascii -> bool) (a b : string) :
  all_chars p (a ++ b) = all_chars p a && all_chars p b.
Proof.
  induction a as [|c a IH]; simpl; [reflexivity|].
  now rewrite IH, andb_assoc.
Qed.

Lemma hex_of_hex (n : nat) (x : Z) :
  all_chars is_hex_char (hashlib.hex_of n x) = true.
Proof.
  induction n as [|n IH]; simpl; [reflexivity|].
  rewrite IH, is_hex_char_hex_digit; [reflexivity|].
  apply Z.mod_pos_bound. lia.
Qed.

Lemma hexdigest_hex (digest : list Z) :
  all_chars is_hex_char (hashlib.hexdigest digest) = true.
Proof.
  induction digest as [|w d IH]; [reflexivity|].
  change (hashlib.hexdigest (w :: d))
    with (hashlib.hex_of 8 w ++ hashlib.hexdigest d)%string.
  now rewrite all_chars_append, hex_of_hex, IH.
Qed.

Lemma substring_0_length (k : nat) (s : string) :
  String.length (substring 0 k s) = Nat.min k (String.length s).
Proof.
  revert s. induction k as [|k IH]; intros [|c s]; simpl; try reflexivity.
  now rewrite IH.
Qed.

Lemma substring_0_prefix (k : nat) (s : string) :
  prefix (substring 0 k s) s = true.
Proof.
  revert s. induction k as [|k IH]; intros [|c s]; simpl; try reflexivity.
  destruct (ascii_dec c c); [apply IH|congruence].
Qed.

(** ** Facts about sequences of calls *)

Lemma run_preserves (P : Db -> Prop) :
  (forall db c, P db -> P (exec db c)) ->
  forall cs db, P db -> P (run cs db).
Proof.
  intros Hstep. induction cs as [|c cs IH]; intros db H; [exact H|].
  simpl. apply IH. now apply Hstep.
Qed.

Lemma max_rowid_seq (t : list ConsentText.row) (a n : nat) :
  map ConsentText.id t = map Z.of_nat (seq a (S n)) ->
  max_rowid t = Some (Z.of_nat (a + n)).
Proof.
  revert a n. induction t as [|r t IH]; intros a n H; [discriminate|].
  simpl in H. injection H as Hr Ht. simpl.
  destruct n as [|n].
  - destruct t; [|discriminate]. simpl. f_equal. lia.
  - rewrite (IH (S a) n Ht). f_equal. lia.
Qed.

Lemma next_rowid_seq (t : list ConsentText.row) :
  map ConsentText.id t = map Z.of_nat (seq 1 (List.length t)) ->
  next_rowid t = Z.of_nat (S (List.length t)).
Proof.
  intros H. unfold next_rowid. destruct t as [|r t]; [reflexivity|].
  rewrite (max_rowid_seq (r :: t) 1 (List.length t) H). simpl List.length. lia.
Qed.

Lemma exec_consistent (db : Db) (c : call) :
  consistent db -> consistent (exec db c).
Proof.
  intros (Hids & Hnd & Hfk & Hh & He).
  destruct c; simpl; try (now repeat split).
  - (* upsert_consent_text *)
    unfold consistent. simpl. repeat split.
    + rewrite map_app, length_app, Nat.add_comm. simpl List.length.
      rewrite seq_S, map_app, <- Hids. simpl. f_equal. f_equal.
      rewrite (next_rowid_seq _ Hids). lia.
    + exact Hnd.
    + eapply Forall_impl; [|exact Hfk]. intros r Hr. simpl in *.
      rewrite map_app, in_app_iff. now left.
    + apply Forall_app. split; [exact Hh|]. now repeat constructor.
    + exact He.
  - (* save_consent *)
    unfold save_consent.
    destruct (fits_int64 _); cbn [negb]; [|now repeat split].
    destruct (id_in_use uuid4 (consents db)) eqn:Eu; [now repeat split|].
    destruct (text_exists (ConsentText.id ct_row) (consent_texts db)) eqn:Et;
      simpl; [|now repeat split].
    unfold consistent. simpl. repeat split; try assumption.
    + rewrite map_app. simpl.
      apply NoDup_app; [exact Hnd|repeat constructor; intros []|].
      intros x Hx [<-|[]]. apply id_in_use_In in Hx. congruence.
    + apply Forall_app. split; [exact Hfk|].
      constructor; [|constructor]. simpl. now apply text_exists_In.
    + apply Forall_app. split; [exact He|].
      constructor; [|constructor]. simpl.
      split; [destruct subject_email as [[|]|]|destruct subject_name as [[|]|]];
        unfold or_None; simpl; congruence.
  - (* revoke_consent *)
    unfold consistent. simpl. repeat split; try assumption.
    + rewrite map_map.
      erewrite map_ext; [exact Hnd|].
      intros r. simpl. unfold revoke_row. now destruct (_ && _).
    + rewrite Forall_forall in *. intros q Hq.
      apply in_map_iff in Hq as [r [<- Hr]]. specialize (Hfk r Hr).
      unfold revoke_row. now destruct (_ && _).
    + rewrite Forall_forall in *. intros q Hq.
      apply in_map_iff in Hq as [r [<- Hr]]. specialize (He r Hr).
      unfold revoke_row. now destruct (_ && _).
Qed.

Lemma init_db_consistent : consistent init_db.
Proof. repeat split; constructor. Qed.

Lemma run_consistent (cs : list call) : consistent (run cs init_db).
Proof.
  apply (run_preserves consistent exec_consistent). exact init_db_consistent.
Qed.

(** ** More properties of the data layer *)

(** X1. [list_consent_texts] returns every stored text once, in descending
    order of [created_at]. *)
Theorem list_consent_texts_newest_first :
  forall db,
    Permutation (list_consent_texts db) (consent_texts db)
    /\ StronglySorted
         (fun a b => text_leb (ConsentText.created_at b)
                              (ConsentText.created_at a) = true)
         (list_consent_texts db).
Proof.
  intros db. split.
  - apply order_by_desc_perm.
  - apply (order_by_desc_sorted ConsentText.created_at text_leb
             text_leb_total text_leb_trans).
Qed.

(** X2. The row that [get_latest_consent_text] returns for a language is
    the first row of that language in the result of [list_consent_texts],
    and it returns [None] when that result has no row of the language. *)
Theorem latest_is_first_listed :
  forall lang db,
    get_latest_consent_text lang db
    = hd_error (filter (fun r => String.eqb (ConsentText.language r) lang)
                       (list_consent_texts db)).
Proof.
  intros lang db. unfold get_latest_consent_text, list_consent_texts.
  now rewrite (filter_order_by_desc ConsentText.created_at text_leb
                 text_leb_total text_leb_trans).
Qed.


(** X4. The hash that [upsert_consent_text] returns and stores is a string
    of 64 characters, each a digit or a letter from a to f. *)
Theorem body_hash_is_hex64 :
  forall now version language title body db,
    let h := fst (upsert_consent_text now version language title body db) in
    String.length h = 64%nat /\ all_chars is_hex_char h = true.
Proof.
  intros. subst h. simpl. split.
  - apply sha256_hex_length.
  - apply hexdigest_hex.
Qed.

(** X5. [sha256_preview text n] is a prefix of the hash that
    [upsert_consent_text] stores for [text]: its first [n] characters for
    [n] from 0 to 64, all 64 for a larger [n], and all but the last [-n]
    for a negative [n]. *)
Theorem sha256_preview_prefix :
  forall text n,
    prefix (sha256_preview text n) (sha256_hex text) = true
    /\ Z.of_nat (String.length (sha256_preview text n))
       = if n <? 0 then Z.max (64 + n) 0 else Z.min n 64.
Proof.
  intros text n. unfold sha256_preview, slice_to. split.
  - apply substring_0_prefix.
  - rewrite substring_0_length, sha256_hex_length.
    change (Z.of_nat 64) with 64.
    destruct (Z.ltb_spec n 0); lia.
Qed.

Lemma select_revoke_row (now : datetime.t) (cid note : string) (r : Consent.row) :
  select (revoke_row now cid note r) = revoke_listed now cid (select r).
Proof.
  unfold revoke_row, revoke_listed. simpl. now destruct (_ && _).
Qed.

Lemma matching_revoke (now : datetime.t) (cid note : string)
    (f : option string) (t : list Consent.row) :
  matching f (map (revoke_row now cid note) t)
  = map (revoke_row now cid note) (matching f t).
Proof.
  unfold matching. destruct f as [f|]; [|reflexivity].
  destruct (truthy (Some f)); [|reflexivity].
  rewrite filter_map_swap. f_equal. apply filter_ext.
  intros r. unfold revoke_row. now destruct (_ && _).
Qed.

(** X6. A revocation changes neither which records a listing shows nor
    their order: the result of [list_consents] after [revoke_consent] is
    its result before, with [is_granted] 0 and [revoked_at] the time of the
    call in the rows of that id that were not revoked. *)
Theorem list_consents_after_revoke :
  forall now cid note email_filter db,
    list_consents email_filter (revoke_consent now cid note db)
    = map (revoke_listed now cid) (list_consents email_filter db).
Proof.
  intros now cid note f db. unfold list_consents. simpl.
  rewrite matching_revoke, order_by_desc_map, !map_map.
  - apply map_ext. intros r. apply select_revoke_row.
  - intros r. unfold revoke_row. now destruct (_ && _).
Qed.

(** X7. In every database filled by calls from the empty one, the ids of
    [consent_texts] are 1, 2, 3, ... in the order of the inserts and no two
    records of [consents] have the same id. *)
Theorem ids_are_keys :
  forall cs,
    let db := run cs init_db in
    map ConsentText.id (consent_texts db)
    = map Z.of_nat (seq 1 (List.length (consent_texts db)))
    /\ NoDup (map Consent.id (consents db)).
Proof.
  intros cs db. destruct (run_consistent cs) as (H1 & H2 & _).
  now split.
Qed.

(** X8. In every database filled by calls from the empty one, the
    [consent_text_id] of every record is the id of a stored text. *)
Theorem records_reference_stored_texts :
  forall cs,
    let db := run cs init_db in
    Forall (fun r => exists t, In t (consent_texts db)
                               /\ ConsentText.id t = Consent.consent_text_id r)
           (consents db).
Proof.
  intros cs db. destruct (run_consistent cs) as (_ & _ & H & _).
  eapply Forall_impl; [|exact H]. intros r Hr. simpl in Hr.
  apply in_map_iff in Hr as [t [Ht Hin]]. now exists t.
Qed.

(** X9. No call removes or changes a row of [consent_texts]: after any
    sequence of calls the table is what it was, followed by the rows
    inserted since, and the [body_hash] of each of these is the digest of
    its [body]. *)
Theorem consent_texts_append_only :
  forall cs db,
    exists added,
      consent_texts (run cs db) = consent_texts db ++ added
      /\ Forall (fun t => ConsentText.body_hash t
                          = sha256_hex (ConsentText.body t)) added.
Proof.
  induction cs as [|c cs IH]; intros db.
  - exists []. split; [now rewrite app_nil_r|constructor].
  - simpl. destruct (IH (exec db c)) as (l & Hl & Hh).
    assert (Hc : exists l0, consent_texts (exec db c) = consent_texts db ++ l0
                 /\ Forall (fun t => ConsentText.body_hash t
                                     = sha256_hex (ConsentText.body t)) l0).
    { destruct c; simpl;
        try (exists []; split; [now rewrite app_nil_r|constructor]).
      - eexists. split; [reflexivity|]. now repeat constructor.
      - unfold save_consent.
        destruct (fits_int64 _); cbn [negb];
          [destruct (id_in_use _ _); [|destruct (negb _)]|]; simpl;
          exists []; (split; [now rewrite app_nil_r|constructor]). }
    destruct Hc as (l0 & Hl0 & Hh0).
    exists (l0 ++ l). split.
    + now rewrite Hl, Hl0, app_assoc.
    + apply Forall_app. now split.
Qed.

Lemma same_grant_refl (r : Consent.row) : same_grant r r.
Proof. now repeat split. Qed.

Lemma same_grant_trans (a b c : Consent.row) :
  same_grant a b -> same_grant b c -> same_grant a c.
Proof. unfold same_grant. intuition congruence. Qed.

Lemma exec_keeps_record (db : Db) (c : call) (i : nat) (r : Consent.row) :
  nth_error (consents db) i = Some r ->
  exists r', nth_error (consents (exec db c)) i = Some r'
             /\ same_grant r r'
             /\ (r' = r \/ (Consent.revoked_at r = None
                            /\ Consent.revoked_at r' <> None
                            /\ Consent.is_granted r' = 0)).
Proof.
  intros Hi.
  destruct c; simpl;
    try (exists r; split; [exact Hi|split; [apply same_grant_refl|now left]]).
  - unfold save_consent.
    destruct (fits_int64 _); cbn [negb];
      [destruct (id_in_use _ _); [|destruct (negb _)]|]; simpl;
      exists r; (split; [|split; [apply same_grant_refl|now left]]);
      try exact Hi.
    rewrite nth_error_app1; [exact Hi|]. apply nth_error_Some. congruence.
  - exists (revoke_row now consent_id note r).
    split; [rewrite nth_error_map, Hi; reflexivity|].
    unfold revoke_row.
    destruct (String.eqb (Consent.id r) consent_id); simpl;
      [|split; [apply same_grant_refl|now left]].
    destruct (Consent.revoked_at r) eqn:R;
      [split; [apply same_grant_refl|now left]|].
    split; [now repeat split|]. right. simpl. repeat split. discriminate.
Qed.

(** X10. No call removes a record of [consents] or changes its id, its
    [created_at], its subject, its purposes or its text id, version and
    hash: after any sequence of calls the record at a place of the table
    is the record that was there, or, if that one was not revoked, that
    one revoked. *)
Theorem record_columns_frozen :
  forall cs db i r,
    nth_error (consents db) i = Some r ->
    exists r', nth_error (consents (run cs db)) i = Some r'
               /\ same_grant r r'
               /\ (r' = r \/ (Consent.revoked_at r = None
                              /\ Consent.revoked_at r' <> None
                              /\ Consent.is_granted r' = 0)).
Proof.
  induction cs as [|c cs IH]; intros db i r Hi.
  - exists r. split; [exact Hi|split; [apply same_grant_refl|now left]].
  - simpl.
    destruct (exec_keeps_record db c i r Hi) as (r1 & H1 & G1 & D1).
    destruct (IH (exec db c) i r1 H1) as (r' & H' & G' & D').
    exists r'. split; [exact H'|].
    split; [now apply same_grant_trans with r1|].
    destruct D1 as [->|(Ra & Rb & Rc)]; [exact D'|].
    destruct D' as [->|(Ra' & _)]; [|congruence].
    right. now repeat split.
Qed.

(** X11. When the clock of every call showed a datetime, the row that
    [get_latest_consent_text] returns is the latest by the clock: no row
    of the language was stored at a later datetime. *)
Theorem latest_is_latest_by_the_clock :
  forall cs lang r,
    Forall clock_valid cs ->
    get_latest_consent_text lang (run cs init_db) = Some r ->
    exists d,
      datetime.valid d /\ ConsentText.created_at r = datetime.isoformat d
      /\ forall r', In r' (consent_texts (run cs init_db)) ->
                    ConsentText.language r' = lang ->
                    exists d', datetime.valid d'
                               /\ ConsentText.created_at r' = datetime.isoformat d'
                               /\ datetime_compare d' d <> Gt.
Proof.
  intros cs lang r Hcs Hget.
  destruct (created_at_stamped cs Hcs) as [Hst _].
  rewrite Forall_forall in Hst.
  unfold get_latest_consent_text in Hget.
  pose proof (order_by_desc_head ConsentText.created_at text_leb
                text_leb_total text_leb_trans
                (filter (fun r => String.eqb (ConsentText.language r) lang)
                        (consent_texts (run cs init_db)))) as H.
  rewrite Hget in H. destruct H as [Hin Hmax].
  apply filter_In in Hin as [Hin _].
  destruct (Hst r Hin) as (d & Hd & Ed).
  exists d. split; [exact Hd|]. split; [exact Ed|].
  intros r' Hr' Hl'. destruct (Hst r' Hr') as (d' & Hd' & Ed').
  exists d'. split; [exact Hd'|]. split; [exact Ed'|].
  apply text_leb_isoformat; try assumption.
  rewrite <- Ed, <- Ed'. apply Hmax. apply filter_In.
  split; [assumption|]. now apply String.eqb_eq.
Qed.

(** X12. [save_consent] stores an empty e-mail address and an empty name
    as [NULL]: in every database filled by calls from the empty one, no
    record holds the empty string in [subject_email] or [subject_name]. *)
Theorem blank_subject_is_null :
  forall cs,
    Forall (fun r => Consent.subject_email r <> Some EmptyString
                     /\ Consent.subject_name r <> Some EmptyString)
           (consents (run cs init_db)).
Proof.
  intros cs. now destruct (run_consistent cs) as (_ & _ & _ & _ & H).
Qed.

Lemma sql_eqb_or_None (e : option string) (f : string) :
  f <> EmptyString ->
  sql_eqb (or_None e) f = true <-> e = Some f.
Proof.
  intros Hf. destruct e as [[|c s]|]; unfold or_None, sql_eqb; cbn [truthy].
  - split; [discriminate|congruence].
  - rewrite String.eqb_eq. split; congruence.
  - split; discriminate.
Qed.

Lemma saved_row_listed uuid4 now e n p ct db cid db' f :
  save_consent uuid4 now e n p ct db = (Ok cid, db') ->
  f <> EmptyString -> e = Some f ->
  In (Selected.mk cid (datetime.isoformat now) (Some f) (or_None n)
        (json.dumps p) (ConsentText.version ct) 1 None)
     (list_consents (Some f) db').
Proof.
  intros Hsave Hf ->.
  apply save_consent_Ok in Hsave as [-> [_ [_ ->]]].
  assert (E : or_None (Some f) = Some f)
    by (destruct f; [congruence|reflexivity]).
  assert (E' : sql_eqb (Some f) f = true) by apply String.eqb_refl.
  unfold list_consents, matching.
  replace (truthy (Some f)) with true by (destruct f; [congruence|reflexivity]).
  cbn [consents]. rewrite filter_app, E. cbn [filter Consent.subject_email].
  rewrite E'.
  apply in_map_iff.
  exists (Consent.mk uuid4 (datetime.isoformat now) (Some f) (or_None n)
            (json.dumps p) (ConsentText.id ct) (ConsentText.version ct)
            (ConsentText.body_hash ct) 1 None None).
  split; [reflexivity|].
  apply order_by_desc_In. apply in_app_iff. right. now left.
Qed.

(** X13. A record saved with a non-empty e-mail address is listed by
    [list_consents] under that address, as granted and not revoked; under
    every other non-empty filter, and under every non-empty filter when it
    was saved without an address, the listing is what it was before. *)
Theorem saved_consent_listed_by_email :
  forall uuid4 now e n p ct db cid db' f,
    save_consent uuid4 now e n p ct db = (Ok cid, db') ->
    f <> EmptyString ->
    (e = Some f ->
     exists s, In s (list_consents (Some f) db')
               /\ Selected.id s = cid
               /\ Selected.subject_email s = Some f
               /\ Selected.consent_text_version s = ConsentText.version ct
               /\ Selected.is_granted s = 1
               /\ Selected.revoked_at s = None)
    /\ (e <> Some f ->
        list_consents (Some f) db' = list_consents (Some f) db).
Proof.
  intros uuid4 now e n p ct db cid db' f Hsave Hf. split.
  - intros He. eexists. split.
    + exact (saved_row_listed _ _ _ _ _ _ _ _ _ _ Hsave Hf He).
    + now repeat split.
  - intros He.
    apply save_consent_Ok in Hsave as [-> [_ [_ ->]]].
    destruct f as [|c f]; [congruence|].
    unfold list_consents. simpl. rewrite filter_app. simpl.
    destruct (sql_eqb (or_None e) (String c f)) eqn:E.
    + apply sql_eqb_or_None in E; [contradiction|discriminate].
    + now rewrite app_nil_r.
Qed.

(** ** The page *)

Lemma checked_purposes_items (w : Widgets.t) :
  checked_purposes w
  = [("newsletter", Widgets.newsletter w); ("produktinfos", Widgets.produktinfos w);
     ("feedback_kontakt", Widgets.feedback_kontakt w);
     ("datenanalyse_aggregiert", Widgets.datenanalyse_aggregiert w)].
Proof. reflexivity. Qed.

Lemma any_checked_purposes (w : Widgets.t) :
  any_values (checked_purposes w)
  = Widgets.newsletter w || Widgets.produktinfos w || Widgets.feedback_kontakt w
    || Widgets.datenanalyse_aggregiert w.
Proof.
  rewrite checked_purposes_items. unfold any_values. simpl.
  now rewrite orb_false_r, !orb_assoc.
Qed.

(** What the form "consent_collect_form" does to the database: nothing, or
    the insert of [save_consent] with the stripped subject, the checked
    purposes and the text shown. *)
Lemma consent_collect_form_db (u : string) (now : datetime.t) (w : Widgets.t)
    (latest : ConsentText.row) (db : Db) :
  snd (consent_collect_form u now w latest db) = db
  \/ (Widgets.submitted w = true /\ Widgets.ack_info w = true /\ Widgets.age_ok w = true
      /\ any_values (checked_purposes w) = true
      /\ snd (consent_collect_form u now w latest db)
         = exec db (Save_consent u now
                      (or_None (Some (str.strip (Widgets.subject_email w))))
                      (or_None (Some (str.strip (Widgets.subject_name w))))
                      (checked_purposes w) latest)).
Proof.
  unfold consent_collect_form.
  destruct (Widgets.submitted w); [|left; reflexivity].
  destruct (Widgets.ack_info w); [|left; reflexivity].
  destruct (Widgets.age_ok w); [|left; reflexivity].
  destruct (any_values (checked_purposes w)) eqn:A; [|left; reflexivity].
  cbn [negb orb]. right. repeat split.
  unfold exec.
  now destruct (save_consent _ _ _ _ _ _ _) as [[cid|err] db'].
Qed.

Lemma get_latest_In (lang : string) (db : Db) (r : ConsentText.row) :
  get_latest_consent_text lang db = Some r ->
  In r (consent_texts db) /\ ConsentText.language r = lang.
Proof.
  unfold get_latest_consent_text. intros H.
  pose proof (order_by_desc_head ConsentText.created_at text_leb
                text_leb_total text_leb_trans
                (filter (fun r => String.eqb (ConsentText.language r) lang)
                        (consent_texts db))) as Hh.
  rewrite H in Hh. destruct Hh as [Hin _].
  apply filter_In in Hin as [Hin Hl]. now apply String.eqb_eq in Hl.
Qed.

(** The calls of the data layer that a run of the script makes. *)
Lemma page_calls (e : Draws.t) (w : Widgets.t) (db : Db) :
  exists cs,
    snd (page e w db) = run cs db
    /\ forall c, In c cs ->
         match c with
         | Save_consent _ _ _ _ p ct =>
             p = checked_purposes w /\ any_values p = true
             /\ get_latest_consent_text "de"
                  (consent_text_form (Draws.now_text e) w db) = Some ct
         | Upsert_consent_text _ _ _ _ _ => True
         | Revoke_consent _ _ _ => True
         | _ => False
         end.
Proof.
  unfold page.
  assert (Hform : exists cs1,
            consent_text_form (Draws.now_text e) w db = run cs1 db
            /\ forall c, In c cs1 ->
                 match c with Upsert_consent_text _ _ _ _ _ => True
                            | _ => False end).
  { unfold consent_text_form. destruct (Widgets.submitted_ct w).
    - exists [Upsert_consent_text (Draws.now_text e) (Widgets.version w)
                (Widgets.language w) (Widgets.title w) (Widgets.body w)].
      split; [reflexivity|]. now intros c [<-|[]].
    - exists []. split; [reflexivity|]. intros c []. }
  destruct Hform as (cs1 & E1 & H1).
  set (db1 := consent_text_form (Draws.now_text e) w db) in *.
  destruct (get_latest_consent_text "de" db1) as [latest|] eqn:L.
  - assert (Hservice : forall d, exists cs3,
              self_service (Draws.now_revoke e) w d = run cs3 d
              /\ forall c, In c cs3 ->
                   match c with Revoke_consent _ _ _ => True
                              | _ => False end).
    { intros d. unfold self_service.
      destruct (list_consents _ d); [exists []; split; [reflexivity|intros c []]|].
      destruct (_ && _).
      - exists [Revoke_consent (Draws.now_revoke e) (Widgets.cid_to_revoke w)
                  default_note].
        split; [reflexivity|]. now intros c [<-|[]].
      - exists []. split; [reflexivity|]. intros c []. }
    destruct (consent_collect_form_db (Draws.uuid4 e) (Draws.now_consent e) w latest db1)
      as [E2|(_ & _ & _ & Hany & E2)].
    + destruct (consent_collect_form _ _ _ _ _) as [[n|err] db2]; simpl in *;
        subst db2.
      * destruct (Hservice db1) as (cs3 & E3 & H3).
        exists (cs1 ++ cs3). rewrite run_app, <- E1. split; [exact E3|].
        intros c Hc. apply in_app_iff in Hc as [Hc|Hc].
        -- specialize (H1 c Hc). now destruct c.
        -- specialize (H3 c Hc). now destruct c.
      * exists cs1. split; [exact E1|].
        intros c Hc. specialize (H1 c Hc). now destruct c.
    + destruct (consent_collect_form _ _ _ _ _) as [[n|err] db2]; simpl in *;
        subst db2.
      * destruct (Hservice (exec db1 (Save_consent (Draws.uuid4 e) (Draws.now_consent e)
                    (or_None (Some (str.strip (Widgets.subject_email w))))
                    (or_None (Some (str.strip (Widgets.subject_name w))))
                    (checked_purposes w) latest))) as (cs3 & E3 & H3).
        exists (cs1 ++ [Save_consent (Draws.uuid4 e) (Draws.now_consent e)
                          (or_None (Some (str.strip (Widgets.subject_email w))))
                          (or_None (Some (str.strip (Widgets.subject_name w))))
                          (checked_purposes w) latest] ++ cs3).
        rewrite !run_app, <- E1. split; [exact E3|].
        intros c Hc. apply in_app_iff in Hc as [Hc|Hc];
          [specialize (H1 c Hc); now destruct c|].
        apply in_app_iff in Hc as [[<-|[]]|Hc]; [now repeat split|].
        specialize (H3 c Hc). now destruct c.
      * exists (cs1 ++ [Save_consent (Draws.uuid4 e) (Draws.now_consent e)
                          (or_None (Some (str.strip (Widgets.subject_email w))))
                          (or_None (Some (str.strip (Widgets.subject_name w))))
                          (checked_purposes w) latest]).
        rewrite run_app, <- E1. split; [reflexivity|].
        intros c Hc. apply in_app_iff in Hc as [Hc|[<-|[]]];
          [specialize (H1 c Hc); now destruct c|now repeat split].
  - exists cs1. split; [exact E1|].
    intros c Hc. specialize (H1 c Hc). now destruct c.
Qed.

Lemma visits_calls (vs : list (Draws.t * Widgets.t)) (db : Db) :
  exists cs, visits vs db = run cs db.
Proof.
  revert db. induction vs as [|[e w] vs IH]; intros db.
  - now exists [].
  - simpl. destruct (page_calls e w db) as (cs1 & E1 & _).
    destruct (IH (snd (page e w db))) as (cs2 & E2).
    exists (cs1 ++ cs2). unfold visits in *. simpl.
    now rewrite E2, E1, run_app.
Qed.

Lemma bound_to_more_texts (db db' : Db) (added : list ConsentText.row)
    (r : Consent.row) :
  consent_texts db' = consent_texts db ++ added ->
  bound_to_text db r -> bound_to_text db' r.
Proof.
  intros E (t & Ht & H). exists t. split; [|exact H].
  rewrite E. apply in_app_iff. now left.
Qed.

Lemma well_bound_upsert now v l t b (db : Db) :
  well_bound db -> well_bound (snd (upsert_consent_text now v l t b db)).
Proof.
  intros (Hb & Hp & Hh). unfold well_bound. simpl. repeat split.
  - eapply Forall_impl; [|exact Hb]. intros r.
    apply (bound_to_more_texts db _
             [ConsentText.mk (next_rowid (consent_texts db)) v l t b
                (sha256_hex b) (datetime.isoformat now)]).
    reflexivity.
  - exact Hp.
  - apply Forall_app. split; [exact Hh|]. now repeat constructor.
Qed.

Lemma well_bound_revoke now cid note (db : Db) :
  well_bound db -> well_bound (revoke_consent now cid note db).
Proof.
  intros (Hb & Hp & Hh). unfold well_bound. simpl. repeat split.
  - rewrite Forall_forall in *. intros q Hq.
    apply in_map_iff in Hq as [r [<- Hr]]. specialize (Hb r Hr).
    unfold revoke_row. destruct (_ && _); [|exact Hb].
    destruct Hb as (t0 & Ht & H). exists t0. split; [exact Ht|exact H].
  - rewrite Forall_forall in *. intros q Hq.
    apply in_map_iff in Hq as [r [<- Hr]]. specialize (Hp r Hr).
    unfold revoke_row. now destruct (_ && _).
  - exact Hh.
Qed.

Lemma well_bound_save u now e n (w : Widgets.t) (latest : ConsentText.row)
    (db : Db) :
  well_bound db ->
  get_latest_consent_text "de" db = Some latest ->
  any_values (checked_purposes w) = true ->
  well_bound (snd (save_consent u now e n (checked_purposes w) latest db)).
Proof.
  intros (Hb & Hp & Hh) Hl Hany. apply get_latest_In in Hl as [Hin Hde].
  unfold save_consent.
  destruct (fits_int64 _); cbn [negb]; [|now repeat split].
  destruct (id_in_use _ _); [now repeat split|].
  destruct (negb _); [now repeat split|].
  unfold well_bound. simpl. repeat split; try exact Hh.
  - apply Forall_app. split; [exact Hb|].
    constructor; [|constructor].
    exists latest. simpl. repeat split; try assumption.
    rewrite Forall_forall in Hh. now apply Hh.
  - apply Forall_app. split; [exact Hp|].
    constructor; [|constructor].
    exists (Widgets.newsletter w), (Widgets.produktinfos w),
      (Widgets.feedback_kontakt w), (Widgets.datenanalyse_aggregiert w).
    simpl. split; [reflexivity|].
    now rewrite <- any_checked_purposes.
Qed.

Lemma well_bound_page (e : Draws.t) (w : Widgets.t) (db : Db) :
  well_bound db -> well_bound (snd (page e w db)).
Proof.
  intros H. unfold page.
  assert (H1 : well_bound (consent_text_form (Draws.now_text e) w db)).
  { unfold consent_text_form. destruct (Widgets.submitted_ct w); [|exact H].
    now apply well_bound_upsert. }
  set (db1 := consent_text_form (Draws.now_text e) w db) in *.
  destruct (get_latest_consent_text "de" db1) as [latest|] eqn:L; [|exact H1].
  assert (H2 : well_bound
                 (snd (consent_collect_form (Draws.uuid4 e)
                         (Draws.now_consent e) w latest db1))).
  { destruct (consent_collect_form_db (Draws.uuid4 e) (Draws.now_consent e)
                w latest db1) as [->|(_ & _ & _ & Hany & ->)];
      [exact H1|].
    now apply well_bound_save. }
  destruct (consent_collect_form _ _ _ _ _) as [[n|err] db2]; simpl in *;
    [|exact H2].
  unfold self_service. destruct (list_consents _ db2); [exact H2|].
  destruct (_ && _); [|exact H2]. now apply well_bound_revoke.
Qed.

Lemma well_bound_visits (vs : list (Draws.t * Widgets.t)) :
  well_bound (visits vs init_db).
Proof.
  assert (H : forall vs db, well_bound db -> well_bound (visits vs db)).
  { induction vs0 as [|[e w] vs0 IH]; intros db Hdb; [exact Hdb|].
    apply IH. now apply well_bound_page. }
  apply H. repeat split; constructor.
Qed.

(** X14. In every database filled by runs of the script from the empty
    one, the text id, version and hash of every record are those of one
    stored text, that text is a German one, and the hash is the SHA-256
    digest of its body. *)
Theorem consents_bound_to_german_text :
  forall vs,
    Forall (bound_to_text (visits vs init_db)) (consents (visits vs init_db)).
Proof. intros vs. now destruct (well_bound_visits vs) as (H & _). Qed.

(** X15. In every database filled by runs of the script from the empty
    one, the purposes of every record are the four of the form, and at
    least one of them is granted. *)
Theorem consents_have_a_purpose :
  forall vs, Forall purposeful (consents (visits vs init_db)).
Proof. intros vs. now destruct (well_bound_visits vs) as (_ & H & _). Qed.

Lemma consent_text_form_consents (now : datetime.t) (w : Widgets.t) (db : Db) :
  consents (consent_text_form now w db) = consents db.
Proof. unfold consent_text_form. now destruct (Widgets.submitted_ct w). Qed.

Lemma self_service_length (now : datetime.t) (w : Widgets.t) (db : Db) :
  List.length (consents (self_service now w db)) = List.length (consents db).
Proof.
  unfold self_service. destruct (list_consents _ db); [reflexivity|].
  destruct (_ && _); [|reflexivity]. simpl. apply length_map.
Qed.

Lemma save_consent_length u now e n p ct (db : Db) :
  match fst (save_consent u now e n p ct db) with
  | Ok _ => List.length (consents (snd (save_consent u now e n p ct db)))
            = S (List.length (consents db))
  | Raise _ => snd (save_consent u now e n p ct db) = db
  end.
Proof.
  unfold save_consent.
  destruct (fits_int64 _); cbn [negb]; [|reflexivity].
  destruct (id_in_use _ _); [reflexivity|].
  destruct (negb _); [reflexivity|]. simpl.
  rewrite length_app. simpl. lia.
Qed.

(** X16. A run of the script adds a record to [consents] only when the
    form was submitted with both confirmations ticked and at least one
    purpose checked, and a German text is stored; it then adds exactly
    one. *)
Theorem page_saves_only_confirmed_consent :
  forall e w db,
    List.length (consents (snd (page e w db))) <> List.length (consents db) ->
    Widgets.submitted w = true
    /\ Widgets.ack_info w = true
    /\ Widgets.age_ok w = true
    /\ Widgets.newsletter w || Widgets.produktinfos w
       || Widgets.feedback_kontakt w || Widgets.datenanalyse_aggregiert w
       = true
    /\ (exists latest,
          get_latest_consent_text "de"
            (consent_text_form (Draws.now_text e) w db) = Some latest)
    /\ List.length (consents (snd (page e w db)))
       = S (List.length (consents db)).
Proof.
  intros e w db. unfold page.
  pose proof (consent_text_form_consents (Draws.now_text e) w db) as E1.
  set (db1 := consent_text_form (Draws.now_text e) w db) in *.
  destruct (get_latest_consent_text "de" db1) as [latest|] eqn:L;
    [|simpl; rewrite E1; congruence].
  pose proof (consent_collect_form_db (Draws.uuid4 e) (Draws.now_consent e)
                w latest db1) as H2.
  assert (Hlen : List.length
                   (consents
                      (snd (let (r, db2) :=
                              consent_collect_form (Draws.uuid4 e)
                                (Draws.now_consent e) w latest db1 in
                            match r with
                            | Ok _ => (Finished,
                                       self_service (Draws.now_revoke e) w db2)
                            | Raise err => (Crashed err, db2)
                            end)))
                 = List.length
                     (consents
                        (snd (consent_collect_form (Draws.uuid4 e)
                                (Draws.now_consent e) w latest db1)))).
  { destruct (consent_collect_form _ _ _ _ _) as [[n|err] db2]; simpl;
      [apply self_service_length|reflexivity]. }
  rewrite Hlen. clear Hlen.
  destruct H2 as [->|(Hs & Ha & Hg & Hany & ->)]; [rewrite E1; congruence|].
  intros Hne. rewrite any_checked_purposes in Hany.
  repeat split; try assumption; [now exists latest|].
  simpl in *.
  pose proof (save_consent_length (Draws.uuid4 e) (Draws.now_consent e)
                (or_None (Some (str.strip (Widgets.subject_email w))))
                (or_None (Some (str.strip (Widgets.subject_name w))))
                (checked_purposes w) latest db1) as Hl.
  destruct (fst (save_consent _ _ _ _ _ _ _)).
  - now rewrite Hl, E1.
  - rewrite Hl, E1 in Hne. congruence.
Qed.

Lemma same_id_same_record (t : list Consent.row) (r q : Consent.row) :
  NoDup (map Consent.id t) -> In r t -> In q t ->
  Consent.id r = Consent.id q -> r = q.
Proof.
  induction t as [|x t IH]; simpl; [contradiction|].
  intros Hnd Hr Hq E. inversion Hnd as [|? ? Hx Hnd']; subst.
  destruct Hr as [->|Hr], Hq as [->|Hq].
  - reflexivity.
  - exfalso. apply Hx. rewrite E. now apply in_map.
  - exfalso. apply Hx. rewrite <- E. now apply in_map.
  - now apply IH.
Qed.

(** X17. With an address typed as filter, section 3 of the page revokes
    only records stored under that address: when the ids of [consents] are
    pairwise distinct, the filter stripped is not empty and the id chosen
    is one of the options of the select box, every record with another
    [subject_email], or with none, is after the run what it was before. *)
Theorem self_service_revokes_own_records_only :
  forall now w db i r,
    let f := str.strip (Widgets.email_filter w) in
    NoDup (map Consent.id (consents db)) ->
    f <> EmptyString ->
    In (Widgets.cid_to_revoke w)
       (revoke_options (list_consents (or_None (Some f)) db)) ->
    nth_error (consents db) i = Some r ->
    Consent.subject_email r <> Some f ->
    nth_error (consents (self_service now w db)) i = Some r.
Proof.
  intros now w db i r f Hnd Hf Hopt Hi He. unfold self_service.
  fold f. destruct (list_consents (or_None (Some f)) db) as [|s0 rows] eqn:L;
    [exact Hi|].
  destruct (String.eqb_spec (Widgets.cid_to_revoke w) EmptyString) as [E|E].
  { now rewrite andb_false_r. }
  destruct (Widgets.revoke_clicked w); [|exact Hi]. simpl.
  rewrite nth_error_map, Hi. simpl. f_equal.
  apply revoke_row_other. intros Hid.
  destruct Hopt as [Hopt|Hopt]; [congruence|].
  apply in_map_iff in Hopt as [s [Hs Hin]].
  rewrite <- L in Hin.
  apply listed_from_record in Hin as (q & Hq & -> & Hmail).
  assert (T : truthy (or_None (Some f)) = true)
    by (destruct f; [congruence|reflexivity]).
  specialize (Hmail T).
  assert (Hrq : r = q).
  { apply (same_id_same_record (consents db)); try assumption.
    - now apply nth_error_In with i.
    - simpl in Hs. congruence. }
  subst q. apply He. rewrite Hmail.
  destruct f; [congruence|reflexivity].
Qed.

Lemma consent_collect_form_Saved u now (w : Widgets.t) latest db cid db' :
  consent_collect_form u now w latest db = (Ok (Saved cid), db') ->
  save_consent u now (or_None (Some (str.strip (Widgets.subject_email w))))
    (or_None (Some (str.strip (Widgets.subject_name w))))
    (checked_purposes w) latest db = (Ok cid, db').
Proof.
  unfold consent_collect_form.
  destruct (Widgets.submitted w); [|discriminate].
  destruct (negb (Widgets.ack_info w) || negb (Widgets.age_ok w));
    [discriminate|].
  destruct (negb (any_values (checked_purposes w))); [discriminate|].
  destruct (save_consent _ _ _ _ _ _ _) as [[c|err] d]; [|discriminate].
  intros H. now inversion H.
Qed.

(** X18. A consent given through the form with an e-mail address is found
    in section 3 of the page by whoever types the same address, whatever
    the white space around it: its row is listed, as active, and its id is
    among the options of the select box. *)
Theorem consent_given_is_found :
  forall u now w latest db cid db' w',
    consent_collect_form u now w latest db = (Ok (Saved cid), db') ->
    str.strip (Widgets.subject_email w) <> EmptyString ->
    str.strip (Widgets.email_filter w') = str.strip (Widgets.subject_email w) ->
    let rows :=
      list_consents (or_None (Some (str.strip (Widgets.email_filter w')))) db'
    in
    In cid (revoke_options rows)
    /\ exists s, In s rows /\ Selected.id s = cid /\ Aktiv s = true
                 /\ Selected.consent_text_version s
                    = ConsentText.version latest.
Proof.
  intros u now w latest db cid db' w' Hform Hne Hsame rows. subst rows.
  rewrite Hsame.
  apply consent_collect_form_Saved in Hform.
  set (f := str.strip (Widgets.subject_email w)) in *.
  assert (E : or_None (Some f) = Some f)
    by (destruct f; [congruence|reflexivity]).
  rewrite E in *.
  pose proof (saved_row_listed _ _ _ _ _ _ _ _ _ f Hform Hne eq_refl) as Hin.
  split.
  - right. apply in_map_iff. eexists. split; [|exact Hin]. reflexivity.
  - eexists. split; [exact Hin|]. now repeat split.
Qed.

Lemma isoformat_not_empty (d : datetime.t) : datetime.isoformat d <> EmptyString.
Proof. unfold datetime.isoformat, datetime.date_text. simpl. discriminate. Qed.

Lemma run_revoked_at (cs : list call) :
  Forall (fun r => granted_iff_active r
                   /\ Consent.revoked_at r <> Some EmptyString)
         (consents (run cs init_db)).
Proof.
  apply (run_preserves
           (fun db => Forall (fun r => granted_iff_active r
                                       /\ Consent.revoked_at r
                                          <> Some EmptyString)
                             (consents db))); [|constructor].
  intros db c H. destruct c; simpl; try exact H.
  - unfold save_consent.
    destruct (fits_int64 _); cbn [negb]; [|exact H].
    destruct (id_in_use _ _); [exact H|].
    destruct (negb _); [exact H|]. simpl.
    apply Forall_app. split; [exact H|].
    constructor; [|constructor]. unfold granted_iff_active. simpl.
    split; [split; [tauto|now left]|discriminate].
  - rewrite Forall_forall in *. intros q Hq.
    apply in_map_iff in Hq as [r [<- Hr]].
    specialize (H r Hr). unfold revoke_row.
    destruct (_ && _); [|exact H].
    unfold granted_iff_active. simpl. split.
    + split; [|now right]. split; intros; discriminate.
    + intros E. injection E as E. now apply isoformat_not_empty in E.
Qed.

(** X19. In every database filled by calls from the empty one, the column
    "Aktiv" of a listed row is true exactly when the record is not
    revoked. *)
Theorem Aktiv_iff_not_revoked :
  forall cs email_filter s,
    In s (list_consents email_filter (run cs init_db)) ->
    (Aktiv s = true <-> Selected.revoked_at s = None).
Proof.
  intros cs f s Hs.
  apply listed_from_record in Hs as (r & Hr & -> & _).
  pose proof (run_revoked_at cs) as H. rewrite Forall_forall in H.
  destruct (H r Hr) as [[Hiff Hbit] Hne].
  unfold Aktiv. simpl.
  destruct (Consent.revoked_at r) as [[|c t]|] eqn:R.
  - congruence.
  - simpl. rewrite andb_false_r. split; discriminate.
  - simpl. rewrite andb_true_r.
    assert (G : Consent.is_granted r = 1) by now apply Hiff.
    rewrite G. now split.
Qed.

(** X20. Runs of the script keep the constraints of the schema: in every
    database they fill from the empty one the ids of the texts are 1, 2,
    ... in the order of the inserts, the ids of the records are pairwise
    distinct, every record points to a stored text, every [body_hash] is
    the digest of its [body], and no record holds an empty address or
    name. *)
Theorem visits_keep_consistent :
  forall vs, consistent (visits vs init_db).
Proof.
  intros vs. destruct (visits_calls vs init_db) as (cs & ->).
  apply run_consistent.
Qed.

(** X21. When the clock of every call showed a datetime before the last
    half millisecond of the year 9999, [list_consents] lists the records
    newest first to the second: no row stands before a row whose record was
    created in a later second. *)
Theorem list_consents_newest_second_first :
  forall cs email_filter,
    Forall clock_in_range cs ->
    StronglySorted not_older_by_the_clock
      (list_consents email_filter (run cs init_db)).
Proof.
  intros cs f Hcs.
  apply list_consents_by_the_clock. now apply created_at_readable.
Qed.

(** ** The page at work *)

Example strip_examples :
  str.strip "  a@example.com " = "a@example.com"
  /\ str.strip (String (str.byte 9) (String (str.byte 10) " "))
     = EmptyString
  /\ str.strip (str.utf8 160 ++ "a b" ++ str.utf8 8195 ++ str.utf8 12288)
     = "a b"
  /\ str.strip (str.utf8 8203 ++ "a ") = (str.utf8 8203 ++ "a")%string.
Proof. vm_compute. repeat split; reflexivity. Qed.

Example sha256_preview_examples :
  sha256_preview "Hello" 10 = "185f8db322"
  /\ sha256_preview "Hello" 0 = EmptyString
  /\ sha256_preview "Hello" 100 = Session.hash_Hello
  /\ sha256_preview "Hello" (-60) = "185f".
Proof. vm_compute. repeat split; reflexivity. Qed.

Example three_visits :
  page Visit.draws_2 Visit.subject init_db = (Stopped, init_db)
  /\ consents Visit.db_1 = []
  /\ consents Visit.db_2 = [Visit.record]
  /\ fst (page Visit.draws_2 Visit.subject Visit.db_2)
     = Crashed (IntegrityError UNIQUE_constraint_failed)
  /\ map (fun r => (Consent.is_granted r, Consent.revoked_at r))
         (consents Visit.db_3)
     = [(0, Some "2024-01-02T08:00:00.000005+00:00")].
Proof. vm_compute. repeat split; reflexivity. Qed.

(** ** The further properties on the session *)

(** X10 on the session: Y's record through calls that revoke it. *)
Lemma record_columns_frozen_witness :
  nth_error (consents Session.db3) 1 = Some Session.record_Y
  /\ exists r',
       nth_error (consents (run Session.later_calls Session.db3)) 1 = Some r'
       /\ same_grant Session.record_Y r'
       /\ (r' = Session.record_Y
           \/ (Consent.revoked_at Session.record_Y = None
               /\ Consent.revoked_at r' <> None
               /\ Consent.is_granted r' = 0)).
Proof.
  assert (H1 : nth_error (consents Session.db3) 1 = Some Session.record_Y)
    by (vm_compute; reflexivity).
  split; [exact H1|].
  exact (record_columns_frozen Session.later_calls Session.db3 1%nat
           Session.record_Y H1).
Defined.

(** X11 on the session: two German texts and an English one. *)
Lemma latest_is_latest_by_the_clock_witness :
  Forall clock_valid Visit.texts
  /\ get_latest_consent_text "de" (run Visit.texts init_db)
     = Some Visit.latest_text
  /\ exists d,
       datetime.valid d
       /\ ConsentText.created_at Visit.latest_text = datetime.isoformat d
       /\ forall r', In r' (consent_texts (run Visit.texts init_db)) ->
                     ConsentText.language r' = "de" ->
                     exists d', datetime.valid d'
                                /\ ConsentText.created_at r'
                                   = datetime.isoformat d'
                                /\ datetime_compare d' d <> Gt.
Proof.
  assert (H1 : Forall clock_valid Visit.texts).
  { unfold Visit.texts.
    repeat (apply Forall_cons;
            [vm_compute; intuition discriminate|]).
    apply Forall_nil. }
  assert (H2 : get_latest_consent_text "de" (run Visit.texts init_db)
               = Some Visit.latest_text)
    by (vm_compute; reflexivity).
  split; [exact H1|]. split; [exact H2|].
  exact (latest_is_latest_by_the_clock Visit.texts "de" Visit.latest_text
           H1 H2).
Defined.

(** X13 on the session: Y's consent under Y's address. *)
Lemma saved_consent_listed_by_email_witness :
  save_consent Session.id_Y Session.t2 (Some "a@example.com") None
    Session.purposes Session.latest Session.db2
  = (Ok Session.id_Y, Session.db3)
  /\ "a@example.com" <> EmptyString
  /\ exists s, In s (list_consents (Some "a@example.com") Session.db3)
               /\ Selected.id s = Session.id_Y
               /\ Selected.subject_email s = Some "a@example.com"
               /\ Selected.consent_text_version s
                  = ConsentText.version Session.latest
               /\ Selected.is_granted s = 1
               /\ Selected.revoked_at s = None.
Proof.
  assert (H1 : save_consent Session.id_Y Session.t2 (Some "a@example.com")
                 None Session.purposes Session.latest Session.db2
               = (Ok Session.id_Y, Session.db3))
    by (vm_compute; reflexivity).
  assert (H2 : "a@example.com" <> EmptyString) by discriminate.
  split; [exact H1|]. split; [exact H2|].
  exact (proj1 (saved_consent_listed_by_email _ _ _ _ _ _ _ _ _ _ H1 H2)
           eq_refl).
Defined.

(** X16 on the session: the visit of the subject. *)
Lemma page_saves_only_confirmed_consent_witness :
  List.length (consents (snd (page Visit.draws_2 Visit.subject Visit.db_1)))
  <> List.length (consents Visit.db_1)
  /\ Widgets.submitted Visit.subject = true
  /\ Widgets.ack_info Visit.subject = true
  /\ Widgets.age_ok Visit.subject = true
  /\ Widgets.newsletter Visit.subject || Widgets.produktinfos Visit.subject
     || Widgets.feedback_kontakt Visit.subject
     || Widgets.datenanalyse_aggregiert Visit.subject = true
  /\ (exists latest,
        get_latest_consent_text "de"
          (consent_text_form (Draws.now_text Visit.draws_2) Visit.subject
             Visit.db_1) = Some latest)
  /\ List.length (consents (snd (page Visit.draws_2 Visit.subject Visit.db_1)))
     = S (List.length (consents Visit.db_1)).
Proof.
  assert (H : List.length
                (consents (snd (page Visit.draws_2 Visit.subject Visit.db_1)))
              <> List.length (consents Visit.db_1))
    by (vm_compute; intros E; discriminate E).
  split; [exact H|].
  exact (page_saves_only_confirmed_consent Visit.draws_2 Visit.subject
           Visit.db_1 H).
Defined.

(** X17 on the session: Y's address typed, Y's id chosen; X's record. *)
Lemma self_service_revokes_own_records_only_witness :
  NoDup (map Consent.id (consents Session.db3))
  /\ str.strip (Widgets.email_filter Visit.revoker) <> EmptyString
  /\ In (Widgets.cid_to_revoke Visit.revoker)
        (revoke_options
           (list_consents
              (or_None (Some (str.strip (Widgets.email_filter Visit.revoker))))
              Session.db3))
  /\ nth_error (consents Session.db3) 0 = Some Session.record_X
  /\ Consent.subject_email Session.record_X
     <> Some (str.strip (Widgets.email_filter Visit.revoker))
  /\ nth_error (consents (self_service Session.t3 Visit.revoker Session.db3)) 0
     = Some Session.record_X.
Proof.
  assert (H1 : NoDup (map Consent.id (consents Session.db3))).
  { vm_compute. repeat constructor; simpl; intuition discriminate. }
  assert (H2 : str.strip (Widgets.email_filter Visit.revoker) <> EmptyString)
    by (vm_compute; intros E; discriminate E).
  assert (H3 : In (Widgets.cid_to_revoke Visit.revoker)
                 (revoke_options
                    (list_consents
                       (or_None
                          (Some (str.strip (Widgets.email_filter Visit.revoker))))
                       Session.db3)))
    by (vm_compute; right; left; reflexivity).
  assert (H4 : nth_error (consents Session.db3) 0 = Some Session.record_X)
    by (vm_compute; reflexivity).
  assert (H5 : Consent.subject_email Session.record_X
               <> Some (str.strip (Widgets.email_filter Visit.revoker)))
    by (intros E; discriminate E).
  split; [exact H1|]. split; [exact H2|]. split; [exact H3|].
  split; [exact H4|]. split; [exact H5|].
  exact (self_service_revokes_own_records_only Session.t3 Visit.revoker
           Session.db3 0%nat Session.record_X H1 H2 H3 H4 H5).
Defined.

(** X18 on the session: the subject's consent, found again. *)
Lemma consent_given_is_found_witness :
  consent_collect_form Session.id_Y Session.t2 Visit.subject Session.latest
    Visit.db_1 = (Ok (Saved Session.id_Y), Visit.db_2)
  /\ str.strip (Widgets.subject_email Visit.subject) <> EmptyString
  /\ str.strip (Widgets.email_filter Visit.revoker)
     = str.strip (Widgets.subject_email Visit.subject)
  /\ In Session.id_Y
        (revoke_options
           (list_consents
              (or_None (Some (str.strip (Widgets.email_filter Visit.revoker))))
              Visit.db_2)).
Proof.
  assert (H1 : consent_collect_form Session.id_Y Session.t2 Visit.subject
                 Session.latest Visit.db_1
               = (Ok (Saved Session.id_Y), Visit.db_2))
    by (vm_compute; reflexivity).
  assert (H2 : str.strip (Widgets.subject_email Visit.subject) <> EmptyString)
    by (vm_compute; intros E; discriminate E).
  assert (H3 : str.strip (Widgets.email_filter Visit.revoker)
               = str.strip (Widgets.subject_email Visit.subject))
    by (vm_compute; reflexivity).
  split; [exact H1|]. split; [exact H2|]. split; [exact H3|].
  exact (proj1 (consent_given_is_found _ _ _ _ _ _ _ Visit.revoker H1 H2 H3)).
Defined.

(** X19 on the session: X's revoked record in the listing. *)
Lemma Aktiv_iff_not_revoked_witness :
  In (select Session.revoked_X) (list_consents None (run Visit.calls init_db))
  /\ (Aktiv (select Session.revoked_X) = true
      <-> Selected.revoked_at (select Session.revoked_X) = None).
Proof.
  assert (H : In (select Session.revoked_X)
                 (list_consents None (run Visit.calls init_db)))
    by (vm_compute; left; reflexivity).
  split; [exact H|].
  exact (Aktiv_iff_not_revoked Visit.calls None (select Session.revoked_X) H).
Defined.

(** X21 on the session: the listing of X and Y. *)
Lemma list_consents_newest_second_first_witness :
  Forall clock_in_range Visit.calls
  /\ StronglySorted not_older_by_the_clock
       (list_consents None (run Visit.calls init_db)).
Proof.
  assert (H : Forall clock_in_range Visit.calls).
  { unfold Visit.calls.
    repeat (apply Forall_cons;
            [vm_compute; repeat split; discriminate|]).
    apply Forall_nil. }
  split; [exact H|].
  exact (list_consents_newest_second_first Visit.calls None H).
Defined.

(** X22. The [purposes_json] that the form stores tells the four decisions
    apart: two submissions that differ in a checkbox never store the same
    text. *)
Theorem purposes_json_tells_decisions :
  forall w w',
    json.dumps (checked_purposes w) = json.dumps (checked_purposes w') ->
    Widgets.newsletter w = Widgets.newsletter w'
    /\ Widgets.produktinfos w = Widgets.produktinfos w'
    /\ Widgets.feedback_kontakt w = Widgets.feedback_kontakt w'
    /\ Widgets.datenanalyse_aggregiert w = Widgets.datenanalyse_aggregiert w'.
Proof.
  intros w w'. rewrite !checked_purposes_items.
  destruct (Widgets.newsletter w), (Widgets.produktinfos w),
    (Widgets.feedback_kontakt w), (Widgets.datenanalyse_aggregiert w),
    (Widgets.newsletter w'), (Widgets.produktinfos w'),
    (Widgets.feedback_kontakt w'), (Widgets.datenanalyse_aggregiert w');
    vm_compute; intros E; first [discriminate E | repeat split].
Qed.

(** X22 on the session: the subject's submission and itself. *)
Lemma purposes_json_tells_decisions_witness :
  json.dumps (checked_purposes Visit.subject)
  = json.dumps (checked_purposes Visit.subject)
  /\ Widgets.newsletter Visit.subject = Widgets.newsletter Visit.subject.
Proof.
  split; [reflexivity|].
  exact (proj1 (purposes_json_tells_decisions Visit.subject Visit.subject
                  eq_refl)).
Defined.
